(** * Portugal nomad price wizard: pricing engine and checkout flow

    A shallow embedding of [src/App.tsx] (the [App] component) and a
    verification of its pricing engine ([calculateTotal], [discountRules]),
    its selection state ([toggleService]) and its three-step flow
    ([handleNextStep], the back button, [handlePayment]).
    The development also covers what the component renders (which controls
    a step offers, the price summary, the progress dots), the payment
    buttons and converted amounts of [src/components/PaymentIntegration.tsx],
    and whole sessions: user inputs interleaved with the two 2000 ms timers
    of a payment.

    Conventions of the embedding:
    - [calculateTotal] reads a JavaScript [number] as an exact rational
      ([Q]); [calculateTotal64] evaluates the same lines in IEEE binary64, the
      arithmetic the program runs in. The two agree on the discount, which is
      a maximum of literals, and on every selection of the shipped catalogue,
      the only service lists the component holds; for other prices the sums
      and products of the program round, so identities between them are
      stated on [calculateTotal64] and for the catalogue;
    - a JavaScript string is a Rocq [string]; Cyrillic literals are kept as
      their UTF-8 bytes;
    - each [useState] cell of [App] is a field of [AppState]; a handler is a
      function on [AppState] that also returns the toasts it hands to the
      toast collaborator ([addToast]);
    - [Record<string, string>] is a [gmap string string]. *)

From Stdlib Require Import QArith Qminmax Lqa Lia List Bool String Ascii.
From Stdlib Require Import Floats Uint63.
From Stdlib Require Import Qabs Qround DecimalString DecimalN.
From stdpp Require Import gmap strings.
Import ListNotations.

Open Scope string_scope.

(** ** Data model (App.tsx, lines 6-27) *)

Inductive Category := essential | additional | premium.

Module Service.
Record t := {
  id : string;
  name : string;
  description : string;
  price : Q;
  selected : bool;
  category : Category
}.

(** [{ ...service, selected: b }] *)
Definition with_selected (b : bool) (s : t) : t :=
  {| id := id s; name := name s; description := description s;
     price := price s; selected := b; category := category s |}.
End Service.
Abbreviation Service := Service.t.

Module FormData.
Record t := {
  name : string;
  email : string;
  phone : string;
  promoCode : string
}.
End FormData.
Abbreviation FormData := FormData.t.

Inductive DiscountType := bulk | promo | first_time | seasonal.

Module DiscountRule.
Record t := {
  type : DiscountType;
  value : Q;
  description : string;
  condition : option (list Service -> option FormData -> bool)
}.
End DiscountRule.
Abbreviation DiscountRule := DiscountRule.t.

Inductive Step := selection | contact | payment.

Inductive Severity := success | warning | error.

(** One call [addToast(message, severity)]. *)
Definition Toast : Type := string * Severity.

(** ** Strings *)

(** [String.prototype.toUpperCase] on the ASCII range: the letters [a]-[z]
    go to [A]-[Z], every other byte is kept. *)
Definition ascii_toUpperCase (c : ascii) : ascii :=
  let n := nat_of_ascii c in
  if (97 <=? n)%nat && (n <=? 122)%nat then ascii_of_nat (n - 32) else c.

Fixpoint toUpperCase (s : string) : string :=
  match s with
  | EmptyString => EmptyString
  | String c rest => String (ascii_toUpperCase c) (toUpperCase rest)
  end.

(** Two characters that are the same up to the case of an ASCII letter. *)
Definition ascii_same_letter (c d : ascii) : bool :=
  Ascii.eqb c d
  || Ascii.eqb (ascii_toUpperCase c) d
  || Ascii.eqb c (ascii_toUpperCase d).

(** Equality of strings up to letter case, position by position. *)
Fixpoint equal_up_to_case (s t : string) : bool :=
  match s, t with
  | EmptyString, EmptyString => true
  | String c s', String d t' => ascii_same_letter c d && equal_up_to_case s' t'
  | _, _ => false
  end.

(** ** The catalogue (App.tsx, lines 33-66) *)

Definition initialServices : list Service := [
  {| Service.id := "1";
     Service.name := "NIF (Налоговый номер)";
     Service.description := "Получение португальского налогового номера (NIF) - обязательный документ для всех резидентов и нерезидентов, ведущих деятельность в Португалии. Включает подачу документов, сопровождение процесса и получение готового NIF.";
     Service.price := 100;
     Service.selected := false;
     Service.category := essential |};
  {| Service.id := "2";
     Service.name := "Поддержка в посольстве";
     Service.description := "Полное сопровождение при подаче документов в консульство/посольство Португалии. Включает предварительную запись, подготовку пакета документов, консультацию перед подачей и помощь в случае дополнительных запросов.";
     Service.price := 300;
     Service.selected := false;
     Service.category := essential |};
  {| Service.id := "3";
     Service.name := "NISS номер";
     Service.description := "Получение номера социального страхования NISS (Número de Identificação da Segurança Social) - необходим для работы и получения социальных услуг в Португалии. Включает подачу заявления и получение готового номера.";
     Service.price := 300;
     Service.selected := false;
     Service.category := additional |};
  {| Service.id := "4";
     Service.name := "Открытие банковского счета";
     Service.description := "Помощь в открытии банковского счета в португальском банке. Включает выбор оптимального банка, подготовку документов, сопровождение при визите в банк и получение банковских карт.";
     Service.price := 400;
     Service.selected := false;
     Service.category := premium |}
].

Definition initialFormData : FormData :=
  {| FormData.name := ""; FormData.email := "";
     FormData.phone := ""; FormData.promoCode := "" |}.

(** ** Discount rules (App.tsx, lines 82-101) *)

(** [services.filter(s => s.selected)] *)
Definition selectedOf (services : list Service) : list Service :=
  List.filter Service.selected services.

(** [formData?.promoCode.toUpperCase() === 'DIGITAL2024'] *)
Definition promoCondition (formData : option FormData) : bool :=
  match formData with
  | Some fd => String.eqb (toUpperCase (FormData.promoCode fd)) "DIGITAL2024"
  | None => false
  end.

Definition bulkRule : DiscountRule :=
  {| DiscountRule.type := bulk;
     DiscountRule.value := 0.15;
     DiscountRule.description := "Скидка 15% при заказе всех услуг";
     DiscountRule.condition :=
       Some (fun services _ => forallb Service.selected services) |}.

Definition promoRule : DiscountRule :=
  {| DiscountRule.type := promo;
     DiscountRule.value := 0.10;
     DiscountRule.description := "Промокод на 10% скидку";
     DiscountRule.condition := Some (fun _ formData => promoCondition formData) |}.

Definition firstTimeRule : DiscountRule :=
  {| DiscountRule.type := first_time;
     DiscountRule.value := 0.05;
     DiscountRule.description := "Скидка 5% для новых клиентов";
     DiscountRule.condition :=
       Some (fun services _ => (2 <=? length (selectedOf services))%nat) |}.

Definition discountRules : list DiscountRule :=
  [bulkRule; promoRule; firstTimeRule].

(** ** Selection state (App.tsx, lines 103-112) *)

(** The updater passed to [setServices]; the vibration call has no effect
    on the state. *)
Definition toggleService (id : string) (prev : list Service) : list Service :=
  map (fun service =>
         if String.eqb (Service.id service) id
         then Service.with_selected (negb (Service.selected service)) service
         else service)
      prev.

(** ** Pricing engine (App.tsx, lines 114-140) *)

Record Calculation := {
  subtotal : Q;
  discount : Q;
  discountAmount : Q;
  total : Q;
  appliedDiscounts : list string;
  selectedServices : list Service
}.

(** [rule.condition && rule.condition(services, formData)] *)
Definition applicable (services : list Service) (formData : FormData)
    (rule : DiscountRule) : bool :=
  match DiscountRule.condition rule with
  | Some cond => cond services (Some formData)
  | None => false
  end.

(** The body of the [forEach] callback, on the pair of the two variables it
    assigns: [totalDiscount] and [appliedDiscounts]. *)
Definition applyRule (services : list Service) (formData : FormData)
    (acc : Q * list string) (rule : DiscountRule) : Q * list string :=
  if applicable services formData rule
  then (Qmax (fst acc) (DiscountRule.value rule),
        (snd acc ++ [DiscountRule.description rule])%list)
  else acc.

(** [rules.forEach(...)] started from [totalDiscount = 0] and
    [appliedDiscounts = []]. *)
Definition applyRules (rules : list DiscountRule) (services : list Service)
    (formData : FormData) : Q * list string :=
  fold_left (applyRule services formData) rules (0%Q, []).

Definition calculateTotal (services : list Service) (formData : FormData)
    : Calculation :=
  let selectedServices := selectedOf services in
  let subtotal :=
    fold_left (fun sum service => (sum + Service.price service)%Q)
              selectedServices 0%Q in
  let '(totalDiscount, appliedDiscounts) :=
    applyRules discountRules services formData in
  let discountAmount := (subtotal * totalDiscount)%Q in
  let total := (subtotal - discountAmount)%Q in
  {| subtotal := subtotal;
     discount := totalDiscount;
     discountAmount := discountAmount;
     total := total;
     appliedDiscounts := appliedDiscounts;
     selectedServices := selectedServices |}.

(** ** Component state (App.tsx, lines 33-79) *)

Record AppState := {
  services : list Service;
  formData : FormData;
  formErrors : gmap string string;
  termsAccepted : bool;
  showContactForm : bool;
  isProcessing : bool;
  currentStep : Step
}.

Definition initialState : AppState :=
  {| services := initialServices;
     formData := initialFormData;
     formErrors := ∅;
     termsAccepted := false;
     showContactForm := false;
     isProcessing := false;
     currentStep := selection |}.

Definition setServices (v : list Service) (st : AppState) : AppState :=
  {| services := v; formData := formData st; formErrors := formErrors st;
     termsAccepted := termsAccepted st; showContactForm := showContactForm st;
     isProcessing := isProcessing st; currentStep := currentStep st |}.

Definition setFormData (v : FormData) (st : AppState) : AppState :=
  {| services := services st; formData := v; formErrors := formErrors st;
     termsAccepted := termsAccepted st; showContactForm := showContactForm st;
     isProcessing := isProcessing st; currentStep := currentStep st |}.

Definition setFormErrors (v : gmap string string) (st : AppState) : AppState :=
  {| services := services st; formData := formData st; formErrors := v;
     termsAccepted := termsAccepted st; showContactForm := showContactForm st;
     isProcessing := isProcessing st; currentStep := currentStep st |}.

Definition setTermsAccepted (v : bool) (st : AppState) : AppState :=
  {| services := services st; formData := formData st; formErrors := formErrors st;
     termsAccepted := v; showContactForm := showContactForm st;
     isProcessing := isProcessing st; currentStep := currentStep st |}.

Definition setShowContactForm (v : bool) (st : AppState) : AppState :=
  {| services := services st; formData := formData st; formErrors := formErrors st;
     termsAccepted := termsAccepted st; showContactForm := v;
     isProcessing := isProcessing st; currentStep := currentStep st |}.

Definition setIsProcessing (v : bool) (st : AppState) : AppState :=
  {| services := services st; formData := formData st; formErrors := formErrors st;
     termsAccepted := termsAccepted st; showContactForm := showContactForm st;
     isProcessing := v; currentStep := currentStep st |}.

Definition setCurrentStep (v : Step) (st : AppState) : AppState :=
  {| services := services st; formData := formData st; formErrors := formErrors st;
     termsAccepted := termsAccepted st; showContactForm := showContactForm st;
     isProcessing := isProcessing st; currentStep := v |}.

(** The [onChange] updaters of the four form fields (App.tsx, lines 257-286):
    [prev => ({ ...prev, field: value })]. *)
Definition withName (v : string) (prev : FormData) : FormData :=
  {| FormData.name := v; FormData.email := FormData.email prev;
     FormData.phone := FormData.phone prev;
     FormData.promoCode := FormData.promoCode prev |}.

Definition withEmail (v : string) (prev : FormData) : FormData :=
  {| FormData.name := FormData.name prev; FormData.email := v;
     FormData.phone := FormData.phone prev;
     FormData.promoCode := FormData.promoCode prev |}.

Definition withPhone (v : string) (prev : FormData) : FormData :=
  {| FormData.name := FormData.name prev; FormData.email := FormData.email prev;
     FormData.phone := v; FormData.promoCode := FormData.promoCode prev |}.

Definition withPromoCode (v : string) (prev : FormData) : FormData :=
  {| FormData.name := FormData.name prev; FormData.email := FormData.email prev;
     FormData.phone := FormData.phone prev; FormData.promoCode := v |}.

(** ** Back button (App.tsx, lines 340-350) *)

(** [{currentStep !== 'selection' && (<button ...>)}]: whether the control
    is in the rendered tree. *)
Definition backButtonRendered (st : AppState) : bool :=
  match currentStep st with
  | selection => false
  | _ => true
  end.

(** The updater of its [onClick]:
    [prev => prev === 'payment' ? 'contact' : 'selection']. *)
Definition backStep (prev : Step) : Step :=
  match prev with
  | payment => contact
  | _ => selection
  end.

Definition handleBack (st : AppState) : AppState :=
  setCurrentStep (backStep (currentStep st)) st.


(** ** Payment (App.tsx, lines 181-202) *)

(** [handlePayment] up to its [await]. *)
Definition handlePayment_begin (st : AppState) : AppState :=
  setIsProcessing true st.

(** [handlePayment] from the moment the awaited timer resolves, [finally]
    included. The promise is resolved by [setTimeout] and never rejected, so
    the [catch] branch is not taken. *)
Definition handlePayment_resume (method : string) (st : AppState)
    : AppState * list Toast :=
  let st := setServices (map (Service.with_selected false) (services st)) st in
  let st := setFormData initialFormData st in
  let st := setCurrentStep selection st in
  let st := setShowContactForm false st in
  let st := setTermsAccepted false st in
  let st := setIsProcessing false st in
  (st, [("Оплата успешно проведена через " +:+ method +:+ "!", success)]).

(** ** Contact validation and step flow (App.tsx, lines 142-179) *)

Module ValidationRule.
Record t := {
  required : bool;
  minLength : option nat;
  email : bool;
  phone : bool
}.
End ValidationRule.

Module ValidationError.
Record t := { field : string; message : string }.
End ValidationError.

Definition validationRules : list (string * ValidationRule.t) := [
  ("name", {| ValidationRule.required := true; ValidationRule.minLength := Some 2%nat;
              ValidationRule.email := false; ValidationRule.phone := false |});
  ("email", {| ValidationRule.required := true; ValidationRule.minLength := None;
               ValidationRule.email := true; ValidationRule.phone := false |});
  ("phone", {| ValidationRule.required := true; ValidationRule.minLength := None;
               ValidationRule.email := false; ValidationRule.phone := true |})
].

(** [errors.forEach(error => { errorMap[error.field] = error.message })] *)
Definition errorMapOf (errors : list ValidationError.t) : gmap string string :=
  fold_left (fun errorMap error =>
               <[ValidationError.field error := ValidationError.message error]> errorMap)
            errors ∅.

Inductive Event :=
| ToggleService (id : string)
| ChangeName (value : string)
| ChangeEmail (value : string)
| ChangePhone (value : string)
| ChangePromoCode (value : string)
| ChangeTerms (checked : bool)
| NextStep
| Back
| PaymentBegin (method : string)
| PaymentResume (method : string).

Section Flow.

(** [validateForm] of the [useValidation] hook ([components/FormValidation]):
    the flow only uses the list of errors it returns. *)
Variable validateForm :
  FormData -> list (string * ValidationRule.t) -> list ValidationError.t.

Definition validateContactForm (st : AppState) : bool * AppState :=
  let errors := validateForm (formData st) validationRules in
  let errorMap := errorMapOf errors in
  ((length errors =? 0)%nat, setFormErrors errorMap st).

Definition handleNextStep (st : AppState) : AppState * list Toast :=
  let calculation := calculateTotal (services st) (formData st) in
  if (length (selectedServices calculation) =? 0)%nat
  then (st, [("Выберите хотя бы одну услугу", warning)])
  else
    match currentStep st with
    | selection => (setShowContactForm true (setCurrentStep contact st), [])
    | contact =>
        let '(valid, st) := validateContactForm st in
        if valid
        then (setCurrentStep payment st, [("Данные успешно сохранены!", success)])
        else (st, [("Пожалуйста, исправьте ошибки в форме", error)])
    | payment => (st, [])
    end.

(** What each handler of the component does to the state. *)
Definition handle (e : Event) (st : AppState) : AppState * list Toast :=
  match e with
  | ToggleService id => (setServices (toggleService id (services st)) st, [])
  | ChangeName v => (setFormData (withName v (formData st)) st, [])
  | ChangeEmail v => (setFormData (withEmail v (formData st)) st, [])
  | ChangePhone v => (setFormData (withPhone v (formData st)) st, [])
  | ChangePromoCode v => (setFormData (withPromoCode v (formData st)) st, [])
  | ChangeTerms checked => (setTermsAccepted checked st, [])
  | NextStep => handleNextStep st
  | Back => (handleBack st, [])
  | PaymentBegin _ => (handlePayment_begin st, [])
  | PaymentResume method => handlePayment_resume method st
  end.

(** The state after a sequence of handler runs, from the initial render. *)
Definition run (events : list Event) : AppState :=
  fold_left (fun st e => fst (handle e st)) events initialState.

(** States the component can be in. Handlers are allowed in any order, also
    where the rendered tree has no control for them and while a payment is
    awaited: this covers every real session. *)
Definition reachable (st : AppState) : Prop :=
  exists events, run events = st.

End Flow.

(** ** Reference notions the properties are stated against *)

(** The sum of the prices of the services whose [selected] flag is set. *)
Fixpoint sumSelectedPrices (services : list Service) : Q :=
  match services with
  | [] => 0
  | s :: rest =>
      ((if Service.selected s then Service.price s else 0)
       + sumSelectedPrices rest)%Q
  end.

(** [d] is the largest value among the rules of [rules] that apply to
    [(services, formData)], and 0 when none applies. *)
Definition maxApplicableValue (rules : list DiscountRule)
    (services : list Service) (formData : FormData) (d : Q) : Prop :=
  (forall r, In r rules -> applicable services formData r = true ->
             (DiscountRule.value r <= d)%Q)
  /\ ((exists r, In r rules /\ applicable services formData r = true
                 /\ d = DiscountRule.value r)
      \/ ((forall r, In r rules -> applicable services formData r = false)
          /\ d = 0%Q)).

(** The descriptions of the rules that apply, in declaration order. *)
Definition applicableDescriptions (rules : list DiscountRule)
    (services : list Service) (formData : FormData) : list string :=
  map DiscountRule.description (List.filter (applicable services formData) rules).

(** Two services that agree on everything but, possibly, [selected]. *)
Definition sameButSelected (s s' : Service) : Prop :=
  Service.id s' = Service.id s
  /\ Service.name s' = Service.name s
  /\ Service.description s' = Service.description s
  /\ Service.price s' = Service.price s
  /\ Service.category s' = Service.category s.

(** What the discount rules see of a state: whether every service is
    selected, whether the promo code matches, whether two or more services
    are selected. *)
Definition discountOf (all promoOk two : bool) : Q :=
  if all then 0.15 else if promoOk then 0.10 else if two then 0.05 else 0.

(** What every handler preserves: the catalogue only ever differs from the
    initial one in its [selected] flags, and the step [payment] is only
    entered with an empty error map. *)
Definition flowInvariant (st : AppState) : Prop :=
  map (Service.with_selected false) (services st) = initialServices
  /\ (currentStep st = payment -> formErrors st = ∅).

(** ** The numeric lines of [calculateTotal] in IEEE binary64 *)

(** The double nearest to a rational: what a numeric literal denotes.
    Numerator and denominator are converted exactly (they are far below
    2^53 here) and the division rounds once. *)
Definition toDouble (q : Q) : float :=
  let n := Qnum q in
  let m := PrimFloat.of_uint63 (Uint63.of_Z (Z.abs n)) in
  PrimFloat.div (if (n <? 0)%Z then PrimFloat.opp m else m)
                (PrimFloat.of_uint63 (Uint63.of_Z (Zpos (Qden q)))).

(** [Math.max] on two numbers that are not NaN. *)
Definition max64 (x y : float) : float :=
  if PrimFloat.ltb x y then y else x.

Record Calculation64 := {
  subtotal64 : float;
  discount64 : float;
  discountAmount64 : float;
  total64 : float
}.

(** [calculateTotal] with [+], [*], [-] and [Math.max] in binary64. *)
Definition calculateTotal64 (services : list Service) (formData : FormData)
    : Calculation64 :=
  let selectedServices := selectedOf services in
  let subtotal :=
    fold_left (fun sum service =>
                 PrimFloat.add sum (toDouble (Service.price service)))
              selectedServices (toDouble 0) in
  let totalDiscount :=
    fold_left (fun totalDiscount rule =>
                 if applicable services formData rule
                 then max64 totalDiscount (toDouble (DiscountRule.value rule))
                 else totalDiscount)
              discountRules (toDouble 0) in
  let discountAmount := PrimFloat.mul subtotal totalDiscount in
  let total := PrimFloat.sub subtotal discountAmount in
  {| subtotal64 := subtotal;
     discount64 := totalDiscount;
     discountAmount64 := discountAmount;
     total64 := total |}.

(** Every assignment of [selected] flags to a catalogue. *)
Fixpoint selections (catalogue : list Service) : list (list Service) :=
  match catalogue with
  | [] => [[]]
  | s :: rest =>
      flat_map (fun t => [Service.with_selected false s :: t;
                          Service.with_selected true s :: t])
               (selections rest)
  end.

(** What C5 asks of one calculation, in binary64, together with agreement
    with the exact calculation. *)
Definition total64_ok (services : list Service) (formData : FormData) : bool :=
  let c := calculateTotal64 services formData in
  let exact := calculateTotal services formData in
  PrimFloat.eqb (total64 c)
    (PrimFloat.mul (subtotal64 c) (PrimFloat.sub (toDouble 1) (discount64 c)))
  && PrimFloat.leb (toDouble 0) (total64 c)
  && PrimFloat.leb (total64 c) (subtotal64 c)
  && PrimFloat.eqb (subtotal64 c) (toDouble (subtotal exact))
  && PrimFloat.eqb (discount64 c) (toDouble (discount exact))
  && PrimFloat.eqb (total64 c) (toDouble (total exact)).

(** ** What the rendered tree offers (App.tsx, lines 236-350) *)

(** [{currentStep === 'selection' && services.map(service => <ServiceCard
    ... onToggle={toggleService} />)}]: the ids whose checkbox is in the
    tree. *)
Definition serviceCardIds (st : AppState) : list string :=
  match currentStep st with
  | selection => map Service.id (services st)
  | _ => []
  end.

(** [{currentStep === 'contact' && (...)}]: the four form fields, and the
    terms checkbox under the same condition. *)
Definition contactFormRendered (st : AppState) : bool :=
  match currentStep st with
  | contact => true
  | _ => false
  end.

(** [{currentStep === 'payment' && (<PaymentIntegration ... />)}] *)
Definition paymentIntegrationRendered (st : AppState) : bool :=
  match currentStep st with
  | payment => true
  | _ => false
  end.

(** [{calculation.selectedServices.length > 0 && <PriceSummary ... />}] *)
Definition priceSummaryRendered (st : AppState) : bool :=
  (0 <? length (selectedServices (calculateTotal (services st) (formData st))))%nat.

(** [{currentStep !== 'payment' && (<button onClick={handleNextStep} ...>)}] *)
Definition nextButtonRendered (st : AppState) : bool :=
  match currentStep st with
  | payment => false
  | _ => true
  end.

(** [disabled={calculation.selectedServices.length === 0}] *)
Definition nextButtonDisabled (st : AppState) : bool :=
  (length (selectedServices (calculateTotal (services st) (formData st))) =? 0)%nat.

(** The user inputs the tree accepts in a state. [PaymentBegin] and
    [PaymentResume] are run by timers, not by a control. *)
Definition offered (e : Event) (st : AppState) : bool :=
  match e with
  | ToggleService id => existsb (String.eqb id) (serviceCardIds st)
  | ChangeName _ | ChangeEmail _ | ChangePhone _ | ChangePromoCode _
  | ChangeTerms _ => contactFormRendered st
  | NextStep => nextButtonRendered st && negb (nextButtonDisabled st)
  | Back => backButtonRendered st
  | PaymentBegin _ | PaymentResume _ => false
  end.

(** ** Payment methods (PaymentIntegration.tsx, lines 28-72) *)

(** The [id]s of [paymentMethods]. *)
Definition paymentMethodIds : list string := ["rub"; "eur"; "crypto"].

(** ** A session: the component, its pending timers and the toasts shown

    Both timers of a payment wait 2000 ms: the one [PaymentIntegration]
    starts on a click, which then calls [onPayment(methodId, total)], and the
    one [handlePayment] awaits. Timers of equal delay run in the order they
    were started, so the pending ones form a queue. *)

Inductive Timer :=
| OnPaymentTimer (methodId : string) (total : Q)
| AwaitTimer (method : string).

Record Session := {
  app : AppState;
  timers : list Timer;
  toasts : list Toast
}.

Inductive Input :=
| User (e : Event)
| ClickPayment (methodId : string)
| TimerFires.

Definition initialSession : Session :=
  {| app := initialState; timers := []; toasts := [] |}.

(** A payment button is in the tree at the payment step, one per method,
    with [disabled={isProcessing}]. *)
Definition enabled (i : Input) (w : Session) : bool :=
  match i with
  | User e => offered e (app w)
  | ClickPayment methodId =>
      paymentIntegrationRendered (app w)
      && negb (isProcessing (app w))
      && existsb (String.eqb methodId) paymentMethodIds
  | TimerFires => negb (length (timers w) =? 0)%nat
  end.

Section Sessions.

Variable validateForm :
  FormData -> list (string * ValidationRule.t) -> list ValidationError.t.

Definition react (i : Input) (w : Session) : Session :=
  match i with
  | User e =>
      let '(st, ts) := handle validateForm e (app w) in
      {| app := st; timers := timers w; toasts := (toasts w ++ ts)%list |}
  | ClickPayment methodId =>
      let totalProp :=
        total (calculateTotal (services (app w)) (formData (app w))) in
      {| app := app w;
         timers := (timers w ++ [OnPaymentTimer methodId totalProp])%list;
         toasts := toasts w |}
  | TimerFires =>
      match timers w with
      | [] => w
      | OnPaymentTimer methodId _ :: rest =>
          {| app := handlePayment_begin (app w);
             timers := (rest ++ [AwaitTimer methodId])%list;
             toasts := toasts w |}
      | AwaitTimer method :: rest =>
          let '(st, ts) := handlePayment_resume method (app w) in
          {| app := st; timers := rest; toasts := (toasts w ++ ts)%list |}
      end
  end.

(** The sessions a user can produce: every input is one the tree accepts
    at that moment. *)
Inductive session : Session -> Prop :=
| session_start : session initialSession
| session_input (w : Session) (i : Input) :
    session w -> enabled i w = true -> session (react i w).

(** The inputs of a list, fed one after the other. *)
Definition feed (inputs : list Input) (w : Session) : Session :=
  fold_left (fun w i => react i w) inputs w.

(** Whether each input of a list is accepted when its turn comes. *)
Fixpoint accepted (inputs : list Input) (w : Session) : bool :=
  match inputs with
  | [] => true
  | i :: rest => enabled i w && accepted rest (react i w)
  end.

(** Let the pending timers run, with no user input in between, for at most
    [fuel] callbacks. *)
Fixpoint fireAll (fuel : nat) (w : Session) : Session :=
  match fuel with
  | O => w
  | S fuel' =>
      match timers w with
      | [] => w
      | _ :: _ => fireAll fuel' (react TimerFires w)
      end
  end.

End Sessions.

(** The callbacks a pending timer still stands for: a payment that has not
    begun needs two, one that awaits needs one. *)
Definition callbacksLeft (t : Timer) : nat :=
  match t with
  | OnPaymentTimer _ _ => 2
  | AwaitTimer _ => 1
  end.

Definition callbacksPending (ts : list Timer) : nat :=
  list_sum (map callbacksLeft ts).

Definition timerMethod (t : Timer) : string :=
  match t with
  | OnPaymentTimer methodId _ => methodId
  | AwaitTimer method => method
  end.

Definition isAwaitTimer (t : Timer) : bool :=
  match t with
  | AwaitTimer _ => true
  | OnPaymentTimer _ _ => false
  end.

(** The toast of a completed payment (App.tsx, line 188). *)
Definition paymentToast (method : string) : Toast :=
  ("Оплата успешно проведена через " +:+ method +:+ "!", success).


(** The order in which the pending payments complete: those already
    awaiting first, then those whose [onPayment] call is still to come. *)
Definition completionOrder (ts : list Timer) : list string :=
  map timerMethod
      (List.filter isAwaitTimer ts
       ++ List.filter (fun t => negb (isAwaitTimer t)) ts).

(** The component right after a payment completed. *)
Definition freshOrder (st : AppState) : Prop :=
  currentStep st = selection
  /\ isProcessing st = false
  /\ selectedOf (services st) = []
  /\ formData st = initialFormData
  /\ termsAccepted st = false
  /\ showContactForm st = false.

(** ** Converted amounts (PaymentIntegration.tsx, lines 52-60) *)

(** [rates[methodId]] for the own keys of [rates]; [None] stands for any
    other value of the lookup, with which the product is NaN. *)
Definition rates (methodId : string) : option Q :=
  if String.eqb methodId "rub" then Some 100%Q
  else if String.eqb methodId "eur" then Some 1%Q
  else if String.eqb methodId "crypto" then Some 0.000015%Q
  else None.

(** [symbols[methodId]] for the own keys of [symbols]. *)
Definition symbols (methodId : string) : option string :=
  if String.eqb methodId "rub" then Some "₽"
  else if String.eqb methodId "eur" then Some "€"
  else if String.eqb methodId "crypto" then Some "₿"
  else None.

Fixpoint zeros (k : nat) : string :=
  match k with
  | O => ""
  | S k' => String "0" (zeros k')
  end.

(** The decimal digits of a natural number, ["0"] for 0. *)
Definition digitsOf (n : N) : string :=
  NilEmpty.string_of_uint (N.to_uint n).

(** The integer [n] for which [n - x] is closest to zero, the larger one of
    two: for [0 <= x]. *)
Definition roundHalfUp (x : Q) : Z := Qfloor (x + (1 # 2)).

Definition pow10 (f : nat) : Q := inject_Z (10 ^ Z.of_nat f).

(** The digits of [n] with the point in front of the last [f] of them,
    padded with zeros to [f + 1] digits; no point for [f = 0]. *)
Definition fixedDigits (n : N) (f : nat) : string :=
  let m := digitsOf n in
  if (f =? 0)%nat then m
  else
    let k := String.length m in
    let m := if (k <=? f)%nat then zeros (f + 1 - k) +:+ m else m in
    let k := String.length m in
    substring 0 (k - f) m +:+ "." +:+ substring (k - f) f m.

(** What [Number.prototype.toFixed] can end in: a fixed-point numeral, a
    thrown [RangeError], or the exponent notation of [ToString]. *)
Inductive FixedResult :=
| Numeral (s : string)
| RangeError
| ExponentNotation.

(** [Number.prototype.toFixed] on a finite number, read as the rational it
    is, following the steps of its specification: more than 100 fraction
    digits throw a [RangeError]; then the sign, the closest integer [n] to
    [x * 10^f] and [fixedDigits]. From 10^21 on the result is the exponent
    notation of [ToString], whose digits are not modelled. *)
Definition toFixedResult (x : Q) (fractionDigits : nat) : FixedResult :=
  if (100 <? fractionDigits)%nat then RangeError
  else
    let s := if Qle_bool 0 x then "" else "-" in
    let x := Qabs x in
    if Qle_bool (inject_Z (10 ^ 21)) x then ExponentNotation
    else
      let n := roundHalfUp (x * pow10 fractionDigits) in
      Numeral (s +:+ fixedDigits (Z.to_N n) fractionDigits).

(** The numeral [toFixed] returns, when it returns one. *)
Definition toFixed (x : Q) (fractionDigits : nat) : option string :=
  match toFixedResult x fractionDigits with
  | Numeral s => Some s
  | RangeError | ExponentNotation => None
  end.

Record ConvertedAmount := {
  amount : option string;
  symbol : option string
}.

(** [getConvertedAmount(methodId)] for the [total] the component was
    rendered with. *)
Definition getConvertedAmount (total : Q) (methodId : string) : ConvertedAmount :=
  {| amount :=
       match rates methodId with
       | Some rate =>
           toFixed (total * rate) (if String.eqb methodId "crypto" then 6 else 2)
       | None => Some "NaN"
       end;
     symbol := symbols methodId |}.

(** *** The same in binary64 *)

(** The rational a double is, [None] for NaN and the infinities. *)
Definition exactValue (x : float) : option Q :=
  match Prim2SF x with
  | S754_zero _ => Some 0%Q
  | S754_finite s m e =>
      Some (inject_Z (if s then Z.neg m else Z.pos m) * Qpower 2 e)%Q
  | S754_infinity _ | S754_nan => None
  end.

(** [toFixed] on a double: the range check on the fraction digits comes
    first; NaN and the infinities print as [ToString] prints them; the
    digits of a finite double are those of its exact value. *)
Definition toFixed64 (x : float) (fractionDigits : nat) : option string :=
  if (100 <? fractionDigits)%nat then None
  else
    match Prim2SF x with
    | S754_nan => Some "NaN"
    | S754_infinity false => Some "Infinity"
    | S754_infinity true => Some "-Infinity"
    | _ =>
        match exactValue x with
        | Some q => toFixed q fractionDigits
        | None => None
        end
    end.

Definition getConvertedAmount64 (total : float) (methodId : string)
    : ConvertedAmount :=
  {| amount :=
       match rates methodId with
       | Some rate =>
           toFixed64 (PrimFloat.mul total (toDouble rate))
                     (if String.eqb methodId "crypto" then 6 else 2)
       | None => Some "NaN"
       end;
     symbol := symbols methodId |}.

(** *** Reading a decimal numeral *)

(** The part before the first point and the part after it. *)
Fixpoint splitAtPoint (s : string) : string * string :=
  match s with
  | EmptyString => (EmptyString, EmptyString)
  | String c rest =>
      if Ascii.eqb c "."
      then (EmptyString, rest)
      else let '(a, b) := splitAtPoint rest in (String c a, b)
  end.

(** The number an unsigned decimal numeral denotes: its digits without the
    point, over 10 to the number of digits after the point. *)
Definition unsignedDecimalValue (s : string) : option Q :=
  let '(a, b) := splitAtPoint s in
  match NilEmpty.uint_of_string (a +:+ b) with
  | Some d => Some (inject_Z (Z.of_N (N.of_uint d)) / pow10 (String.length b))%Q
  | None => None
  end.

(** The number a decimal numeral with an optional leading minus denotes. *)
Definition decimalValue (s : string) : option Q :=
  match s with
  | String c rest =>
      if Ascii.eqb c "-"
      then option_map Qopp (unsignedDecimalValue rest)
      else unsignedDecimalValue s
  | EmptyString => unsignedDecimalValue s
  end.

(** The number of digits a numeral shows after its point. *)
Definition fractionLength (s : string) : nat :=
  String.length (snd (splitAtPoint s)).

(** A decidable form of: for this state and method the rate and the symbol
    exist, the amount shown denotes exactly [total * rate], and the binary64
    evaluation shows the same amount. *)
Definition convertedAmountExact (services : list Service) (formData : FormData)
    (methodId : string) : bool :=
  let t := total (calculateTotal services formData) in
  let t64 := total64 (calculateTotal64 services formData) in
  match rates methodId, amount (getConvertedAmount t methodId),
        symbol (getConvertedAmount t methodId) with
  | Some rate, Some s, Some _ =>
      match decimalValue s, amount (getConvertedAmount64 t64 methodId) with
      | Some v, Some s64 => Qeq_bool v (t * rate) && String.eqb s64 s
      | _, _ => false
      end
  | _, _, _ => false
  end.

(** ** Price summary (App.tsx, lines 445-489) *)

(** [{calculation.discount > 0 && (...)}] *)
Definition discountBlockRendered (c : Calculation) : bool :=
  negb (Qle_bool (discount c) 0).

(** [Math.round(calculation.discount * 100)]: [Math.round x] is the floor
    of [x + 1/2]. *)
Definition discountPercent (c : Calculation) : Z :=
  roundHalfUp (discount c * 100).

(** [calculation.discountAmount.toFixed(0)] *)
Definition discountAmountShown (c : Calculation) : option string :=
  toFixed (discountAmount c) 0.

(** The same two labels in binary64; [Math.round] of a finite double is
    taken on its exact value. *)
Definition discountPercent64 (c : Calculation64) : option Z :=
  option_map roundHalfUp
             (exactValue (PrimFloat.mul (discount64 c) (toDouble 100))).

Definition discountAmountShown64 (c : Calculation64) : option string :=
  toFixed64 (discountAmount64 c) 0.

(** ** Progress indicator (App.tsx, lines 219-233) *)

Inductive DotClass := dotBlue | dotGreen | dotGray.

Definition Step_eqb (a b : Step) : bool :=
  match a, b with
  | selection, selection | contact, contact | payment, payment => true
  | _, _ => false
  end.

Definition stepOrder : list Step := [selection; contact; payment].

(** [array.indexOf(x)], -1 when [x] is not in the array. *)
Fixpoint indexOf (l : list Step) (x : Step) : Z :=
  match l with
  | [] => -1
  | y :: rest =>
      if Step_eqb y x then 0
      else let i := indexOf rest x in if (i <? 0)%Z then -1 else (i + 1)%Z
  end.

(** The class of the dot drawn for [step] at position [index]. *)
Definition dotClass (currentStep step : Step) (index : nat) : DotClass :=
  if Step_eqb currentStep step then dotBlue
  else if (Z.of_nat index <? indexOf stepOrder currentStep)%Z then dotGreen
  else dotGray.

(** [stepOrder.map((step, index) => ...)] *)
Definition progressDots (currentStep : Step) : list DotClass :=
  map (fun '(index, step) => dotClass currentStep step index)
      (combine (seq 0 (length stepOrder)) stepOrder).

(** ** Doubles and the rationals they are *)

(** The double [x] is finite and is exactly the rational [r]. *)
Definition denotes (x : float) (r : Q) : Prop :=
  match exactValue x with
  | Some q => (q == r)%Q
  | None => False
  end.

Definition denotesb (x : float) (r : Q) : bool :=
  match exactValue x with
  | Some q => Qeq_bool q r
  | None => false
  end.

(** A service with the given id, price and flag, for examples outside the
    shipped catalogue. *)
Definition pricedService (id : string) (price : Q) (selected : bool) : Service :=
  {| Service.id := id; Service.name := ""; Service.description := "";
     Service.price := price; Service.selected := selected;
     Service.category := additional |}.

(** ** Contact validation, from the specification *)

(** [formData[field]] for the fields of the form. *)
Definition fieldValue (formData : FormData) (field : string) : string :=
  if String.eqb field "name" then FormData.name formData
  else if String.eqb field "email" then FormData.email formData
  else if String.eqb field "phone" then FormData.phone formData
  else if String.eqb field "promoCode" then FormData.promoCode formData
  else "".

Definition isSpace (c : ascii) : bool :=
  let n := nat_of_ascii c in
  (n =? 32)%nat || (n =? 9)%nat || (n =? 10)%nat || (n =? 13)%nat.

Definition isDigit (c : ascii) : bool :=
  let n := nat_of_ascii c in (48 <=? n)%nat && (n <=? 57)%nat.

Fixpoint allChars (p : ascii -> bool) (s : string) : bool :=
  match s with
  | EmptyString => true
  | String c rest => p c && allChars p rest
  end.

Fixpoint countChar (c : ascii) (s : string) : nat :=
  match s with
  | EmptyString => O
  | String d rest => ((if Ascii.eqb c d then 1 else 0) + countChar c rest)%nat
  end.

(** The part before the first [c] and the part after it. *)
Fixpoint splitAtChar (c : ascii) (s : string) : string * string :=
  match s with
  | EmptyString => (EmptyString, EmptyString)
  | String d rest =>
      if Ascii.eqb c d
      then (EmptyString, rest)
      else let '(a, b) := splitAtChar c rest in (String d a, b)
  end.

(** Some point of [s] has a character after it. *)
Fixpoint pointThenMore (s : string) : bool :=
  match s with
  | EmptyString => false
  | String c rest =>
      (Ascii.eqb c "." && negb (String.eqb rest "")) || pointThenMore rest
  end.

(** Modelled from the spec: the email format of [validateForm], which the
    specification gives by examples only ("a@b" is malformed, "a@b.com" is
    accepted). Read here as: no white space, one "@" with text before it,
    and after it a point with text on both sides. *)
Definition validEmailModel (s : string) : bool :=
  allChars (fun c => negb (isSpace c)) s
  && (countChar "@" s =? 1)%nat
  && let '(local, domain) := splitAtChar "@" s in
     negb (String.eqb local "")
     && match domain with
        | EmptyString => false
        | String _ rest => pointThenMore rest
        end.

(** Modelled from the spec: the phone format of [validateForm], which the
    specification gives by one example ("+1234567890" is accepted). Read
    here as: an optional "+" followed by at least 7 digits, spaces, hyphens
    or parentheses. *)
Definition validPhoneModel (s : string) : bool :=
  let body := match s with
              | String c rest => if Ascii.eqb c "+" then rest else s
              | EmptyString => s
              end in
  (7 <=? String.length body)%nat
  && allChars (fun c => isDigit c || Ascii.eqb c " " || Ascii.eqb c "-"
                        || Ascii.eqb c "(" || Ascii.eqb c ")") body.

(** The first rule a value breaks, if any. *)
Definition validateFieldModel (formData : FormData)
    (entry : string * ValidationRule.t) : list ValidationError.t :=
  let '(field, rule) := entry in
  let value := fieldValue formData field in
  let report message :=
    [{| ValidationError.field := field; ValidationError.message := message |}] in
  if String.eqb value "" then
    if ValidationRule.required rule then report "required" else []
  else if match ValidationRule.minLength rule with
          | Some n => (String.length value <? n)%nat
          | None => false
          end then report "too short"
  else if ValidationRule.email rule && negb (validEmailModel value)
  then report "invalid email"
  else if ValidationRule.phone rule && negb (validPhoneModel value)
  then report "invalid phone"
  else [].

(** Modelled from the spec: [validateForm] of the [useValidation] hook
    ([components/FormValidation], which is not among the sources).
    Section 4.3 of the specification: the name is required with a minimum
    length of 2, the email is required in a valid email format, the phone is
    required in a valid phone format, the promo code is never required, and
    the result is the errors per field, empty when the form is valid. *)
Definition validateFormModel (formData : FormData)
    (rules : list (string * ValidationRule.t)) : list ValidationError.t :=
  flat_map (validateFieldModel formData) rules.

(** * Properties *)

(** ** Pricing engine *)

Example calculateTotal_two_selected :
  let c := calculateTotal (toggleService "4" (toggleService "1" initialServices))
                          initialFormData in
  (subtotal c == 500)%Q /\ discount c = 0.05%Q /\ (total c == 475)%Q.
Proof. vm_compute. repeat split. Qed.

Section Pricing.

Variables (services : list Service) (formData : FormData).

Lemma subtotal_calculateTotal :
  subtotal (calculateTotal services formData)
  = fold_left (fun sum service => (sum + Service.price service)%Q)
              (selectedOf services) 0%Q.
Proof.
  unfold calculateTotal. destruct (applyRules _ _ _). reflexivity.
Qed.

Lemma discount_calculateTotal :
  discount (calculateTotal services formData)
  = fst (applyRules discountRules services formData).
Proof.
  unfold calculateTotal. destruct (applyRules _ _ _). reflexivity.
Qed.

Lemma appliedDiscounts_calculateTotal :
  appliedDiscounts (calculateTotal services formData)
  = snd (applyRules discountRules services formData).
Proof.
  unfold calculateTotal. destruct (applyRules _ _ _). reflexivity.
Qed.

Lemma total_calculateTotal :
  total (calculateTotal services formData)
  = (subtotal (calculateTotal services formData)
     - subtotal (calculateTotal services formData)
       * discount (calculateTotal services formData))%Q.
Proof.
  unfold calculateTotal. destruct (applyRules _ _ _). reflexivity.
Qed.

(** The three conditions decide the discount: the first rule that applies,
    in declaration order, is also the one with the largest value. *)
Lemma discount_discountOf :
  discount (calculateTotal services formData)
  = discountOf (forallb Service.selected services)
               (promoCondition (Some formData))
               (2 <=? length (selectedOf services))%nat.
Proof.
  rewrite discount_calculateTotal.
  unfold applyRules, discountRules, applyRule, applicable.
  cbn -[Qmax promoCondition forallb Nat.leb selectedOf].
  destruct (forallb Service.selected services),
           (promoCondition (Some formData)),
           (2 <=? length (selectedOf services))%nat; reflexivity.
Qed.

End Pricing.

Lemma fold_prices_from (l : list Service) (a : Q) :
  (fold_left (fun sum service => sum + Service.price service) l a
   == a + fold_left (fun sum service => sum + Service.price service) l 0)%Q.
Proof.
  revert a. induction l as [|s l IH]; intros a; simpl.
  - ring.
  - rewrite IH, (IH (0 + Service.price s)%Q). ring.
Qed.

Lemma fold_selected_prices (services : list Service) :
  (fold_left (fun sum service => sum + Service.price service)
             (selectedOf services) 0
   == sumSelectedPrices services)%Q.
Proof.
  induction services as [|s l IH]; simpl.
  - reflexivity.
  - unfold selectedOf in *. simpl. destruct (Service.selected s); simpl.
    + rewrite fold_prices_from, IH. ring.
    + rewrite IH. ring.
Qed.

Lemma sumSelectedPrices_nonneg (services : list Service) :
  (forall s, In s services -> (0 <= Service.price s)%Q) ->
  (0 <= sumSelectedPrices services)%Q.
Proof.
  induction services as [|s l IH]; intros Hp; simpl.
  - lra.
  - assert (0 <= Service.price s)%Q by (apply Hp; left; reflexivity).
    assert (0 <= sumSelectedPrices l)%Q by (apply IH; intros; apply Hp; right; assumption).
    destruct (Service.selected s); lra.
Qed.

Lemma discountOf_bounds (a b c : bool) :
  (0 <= discountOf a b c /\ discountOf a b c <= 0.15)%Q.
Proof. destruct a, b, c; vm_compute; split; discriminate. Qed.

Lemma Qmax_cases (x y : Q) : Qmax x y = x \/ Qmax x y = y.
Proof.
  unfold Qmax, GenericMinMax.gmax. destruct (x ?= y)%Q; auto.
Qed.

Section Rules.

Variables (services : list Service) (formData : FormData).

(** The running maximum of the [forEach] loop, from any starting pair. *)
Lemma fold_applyRule_max (rules : list DiscountRule) (acc : Q * list string) :
  let d := fst (fold_left (applyRule services formData) rules acc) in
  (fst acc <= d)%Q
  /\ (forall r, In r rules -> applicable services formData r = true ->
                (DiscountRule.value r <= d)%Q)
  /\ (d = fst acc
      \/ exists r, In r rules /\ applicable services formData r = true
                   /\ d = DiscountRule.value r).
Proof.
  revert acc. induction rules as [|rule rules IH]; intros acc; simpl.
  - split; [lra|]. split; [intros r []|]. left; reflexivity.
  - specialize (IH (applyRule services formData acc rule)).
    destruct IH as (Hle & Hub & Hwit).
    unfold applyRule in Hle, Hub, Hwit |- *.
    destruct (applicable services formData rule) eqn:Happ; simpl in *.
    + pose proof (Q.le_max_l (fst acc) (DiscountRule.value rule)) as Hl.
      pose proof (Q.le_max_r (fst acc) (DiscountRule.value rule)) as Hr.
      split; [lra|]. split.
      * intros r [<-|Hin] Hr'; [lra | auto].
      * destruct Hwit as [-> | (r & Hin & Hr' & ->)].
        -- destruct (Qmax_cases (fst acc) (DiscountRule.value rule)) as [->| ->];
             [left; reflexivity | right; exists rule; auto].
        -- right; exists r; auto.
    + split; [assumption|]. split.
      * intros r [<-|Hin] Hr'; [congruence | auto].
      * destruct Hwit as [-> | (r & Hin & Hr' & ->)];
          [left; reflexivity | right; exists r; auto].
Qed.

(** With positive rule values the loop computes the maximum of the
    applicable values, and 0 exactly when no rule applies. *)
Lemma applyRules_max (rules : list DiscountRule) :
  (forall r, In r rules -> (0 < DiscountRule.value r)%Q) ->
  maxApplicableValue rules services formData
                     (fst (applyRules rules services formData)).
Proof.
  intros Hpos. unfold applyRules.
  destruct (fold_applyRule_max rules (0%Q, [])) as (Hle & Hub & Hwit).
  simpl in Hle, Hub, Hwit. split; [exact Hub|].
  destruct Hwit as [H0 | Hex]; [right | left; exact Hex].
  split; [|exact H0]. intros r Hin.
  destruct (applicable services formData r) eqn:Happ; [|reflexivity].
  specialize (Hub r Hin Happ). specialize (Hpos r Hin). rewrite H0 in Hub. lra.
Qed.

(** The list the loop pushes to, from any starting pair. *)
Lemma fold_applyRule_descriptions (rules : list DiscountRule)
    (acc : Q * list string) :
  snd (fold_left (applyRule services formData) rules acc)
  = (snd acc ++ applicableDescriptions rules services formData)%list.
Proof.
  revert acc. unfold applicableDescriptions.
  induction rules as [|rule rules IH]; intros acc; simpl.
  - symmetry. apply app_nil_r.
  - rewrite IH. unfold applyRule.
    destruct (applicable services formData rule); simpl.
    + rewrite <- app_assoc. reflexivity.
    + reflexivity.
Qed.

End Rules.

Lemma discountRules_positive :
  forall r, In r discountRules -> (0 < DiscountRule.value r)%Q.
Proof.
  intros r [<-|[<-|[<-|[]]]]; reflexivity.
Qed.

(** C3. For every selection state and form data, the discount fraction that
    [calculateTotal] returns is the maximum value among the applicable
    discount rules, and 0 if none applies; when every service is selected it
    is 0.15, whatever other rules apply. *)
Theorem discount_is_max_of_applicable_rules :
  forall (services : list Service) (formData : FormData),
    maxApplicableValue discountRules services formData
                       (discount (calculateTotal services formData))
    /\ (forallb Service.selected services = true ->
        discount (calculateTotal services formData) = 0.15%Q).
Proof.
  intros services formData. split.
  - rewrite discount_calculateTotal.
    apply applyRules_max, discountRules_positive.
  - intros Hall. rewrite discount_discountOf, Hall. reflexivity.
Qed.

Lemma discount_is_max_of_applicable_rules_witness :
  let services := map (Service.with_selected true) initialServices in
  let formData := withPromoCode "Digital2024" initialFormData in
  forallb Service.selected services = true
  /\ applicable services formData promoRule = true
  /\ applicable services formData firstTimeRule = true
  /\ discount (calculateTotal services formData) = 0.15%Q.
Proof.
  intros services formData.
  split; [reflexivity|]. split; [reflexivity|]. split; [reflexivity|].
  apply (discount_is_max_of_applicable_rules services formData). reflexivity.
Defined.

(** C8. For every selection state and form data, [appliedDiscounts] holds
    the descriptions of exactly the applicable discount rules, in the order
    the rules are declared, whether or not a rule's value is the maximum that
    became the discount. *)
Theorem appliedDiscounts_lists_every_applicable_rule :
  forall (services : list Service) (formData : FormData),
    appliedDiscounts (calculateTotal services formData)
    = applicableDescriptions discountRules services formData.
Proof.
  intros. rewrite appliedDiscounts_calculateTotal. unfold applyRules.
  rewrite fold_applyRule_descriptions. reflexivity.
Qed.

(** All three rules apply, all three descriptions are listed, and only 0.15
    is used. *)
Example appliedDiscounts_all_three :
  let c := calculateTotal (map (Service.with_selected true) initialServices)
                          (withPromoCode "digital2024" initialFormData) in
  appliedDiscounts c
  = [DiscountRule.description bulkRule; DiscountRule.description promoRule;
     DiscountRule.description firstTimeRule]
  /\ discount c = 0.15%Q.
Proof. split; reflexivity. Qed.

(** *** Promo code *)

Lemma ascii_toUpperCase_idempotent (c : ascii) :
  ascii_toUpperCase (ascii_toUpperCase c) = ascii_toUpperCase c.
Proof.
  destruct c as [[] [] [] [] [] [] [] []]; reflexivity.
Qed.

Lemma ascii_same_letter_toUpperCase (c d : ascii) :
  ascii_same_letter c d = true -> ascii_toUpperCase c = ascii_toUpperCase d.
Proof.
  unfold ascii_same_letter. intros H.
  apply orb_true_iff in H as [H|H]; [apply orb_true_iff in H as [H|H]|];
    apply Ascii.eqb_eq in H.
  - congruence.
  - rewrite <- H. symmetry. apply ascii_toUpperCase_idempotent.
  - rewrite H. apply ascii_toUpperCase_idempotent.
Qed.

Lemma equal_up_to_case_toUpperCase (s t : string) :
  equal_up_to_case s t = true -> toUpperCase s = toUpperCase t.
Proof.
  revert t. induction s as [|c s IH]; intros [|d t] H; simpl in *;
    try discriminate; [reflexivity|].
  apply andb_true_iff in H as [Hc Hs].
  f_equal; [apply ascii_same_letter_toUpperCase | apply IH]; assumption.
Qed.

Lemma promoCondition_up_to_case (formData : FormData) :
  equal_up_to_case (FormData.promoCode formData) "digital2024" = true ->
  promoCondition (Some formData) = true.
Proof.
  intros H. unfold promoCondition.
  rewrite (equal_up_to_case_toUpperCase _ _ H). reflexivity.
Qed.

(** C4. For every form data whose promo code is "digital2024" up to letter
    case, and every selection with at least two but not all services
    selected, [calculateTotal] returns the discount 0.10. *)
Theorem promo_discount_is_ten_percent :
  forall (services : list Service) (formData : FormData),
    equal_up_to_case (FormData.promoCode formData) "digital2024" = true ->
    (2 <= length (selectedOf services))%nat ->
    forallb Service.selected services = false ->
    discount (calculateTotal services formData) = 0.10%Q.
Proof.
  intros services formData Hpromo Htwo Hnotall.
  rewrite discount_discountOf, Hnotall, (promoCondition_up_to_case _ Hpromo).
  reflexivity.
Qed.

Lemma promo_discount_is_ten_percent_witness :
  let services := toggleService "3" (toggleService "2" initialServices) in
  let formData := withPromoCode "DiGiTaL2024" initialFormData in
  equal_up_to_case (FormData.promoCode formData) "digital2024" = true
  /\ (2 <= length (selectedOf services))%nat
  /\ forallb Service.selected services = false
  /\ discount (calculateTotal services formData) = 0.10%Q.
Proof.
  intros services formData.
  split; [reflexivity|]. split; [vm_compute; lia|]. split; [reflexivity|].
  apply (promo_discount_is_ten_percent services formData);
    [reflexivity | vm_compute; lia | reflexivity].
Defined.

(** *** Total *)

(** On the shipped catalogue the binary64 evaluation has no rounding error:
    for each of the 16 selections, with and without a matching promo code
    (the form data enters the calculation through that condition only),
    total = subtotal * (1 - discount) holds as doubles, 0 <= total <=
    subtotal, and subtotal, discount and total are the doubles nearest to
    the exact values. *)
Example catalogue_total64_exact :
  length (selections initialServices) = 16%nat
  /\ forallb (fun services =>
                total64_ok services initialFormData
                && total64_ok services (withPromoCode "digital2024" initialFormData))
             (selections initialServices) = true.
Proof. split; vm_compute; reflexivity. Qed.

(** *** Monotonicity *)

Lemma selectedOf_app (l1 l2 : list Service) :
  selectedOf (l1 ++ l2) = (selectedOf l1 ++ selectedOf l2)%list.
Proof. apply List.filter_app. Qed.

Lemma discountOf_monotone (a a' b c c' : bool) :
  (a = true -> a' = true) -> (c = true -> c' = true) ->
  (discountOf a b c <= discountOf a' b c')%Q.
Proof.
  intros Ha Hc.
  destruct a; [rewrite (Ha eq_refl)|];
    (destruct c; [rewrite (Hc eq_refl)|]);
    destruct b; try destruct a'; try destruct c'; discriminate.
Qed.

(** C10. The discount is monotone in the selection: for every service list
    and form data, turning the [selected] flag of any one service from false
    to true does not decrease the discount that [calculateTotal] returns. *)
Theorem discount_monotone_in_selection :
  forall (before after : list Service) (s : Service) (formData : FormData),
    Service.selected s = false ->
    (discount (calculateTotal (before ++ s :: after) formData)
     <= discount (calculateTotal
                    (before ++ Service.with_selected true s :: after) formData))%Q.
Proof.
  intros before after s formData Hs.
  rewrite !discount_discountOf. apply discountOf_monotone.
  - rewrite forallb_app. simpl. rewrite Hs, andb_false_r. discriminate.
  - rewrite !selectedOf_app, !length_app.
    change (selectedOf (s :: after))
      with (if Service.selected s then s :: selectedOf after else selectedOf after).
    change (selectedOf (Service.with_selected true s :: after))
      with (Service.with_selected true s :: selectedOf after).
    rewrite Hs. simpl length.
    intros H. apply Nat.leb_le in H. apply Nat.leb_le. lia.
Qed.

Lemma discount_monotone_in_selection_witness :
  let before := map (Service.with_selected true) (firstn 3 initialServices) in
  let s := {| Service.id := "4"; Service.name := "Открытие банковского счета";
              Service.description := ""; Service.price := 400;
              Service.selected := false; Service.category := premium |} in
  Service.selected s = false
  /\ (discount (calculateTotal (before ++ [s]) initialFormData)
      <= discount (calculateTotal
                     (before ++ [Service.with_selected true s]) initialFormData))%Q.
Proof.
  intros before s. split; [reflexivity|].
  apply (discount_monotone_in_selection before [] s initialFormData).
  reflexivity.
Defined.

(** ** Selection state *)

Lemma toggle_one_sameButSelected (id : string) (s : Service) :
  sameButSelected s
    (if String.eqb (Service.id s) id
     then Service.with_selected (negb (Service.selected s)) s else s).
Proof.
  destruct (String.eqb (Service.id s) id); repeat split.
Qed.

Lemma toggleService_no_match (id : string) (services : list Service) :
  (forall s, In s services -> Service.id s <> id) ->
  toggleService id services = services.
Proof.
  induction services as [|s l IH]; intros Hno; simpl; [reflexivity|].
  destruct (String.eqb_spec (Service.id s) id) as [Heq|_].
  - exfalso. apply (Hno s); [left; reflexivity | exact Heq].
  - f_equal. apply IH. intros s' Hin. apply Hno. right. exact Hin.
Qed.

(** C9. For every service list and every id, [toggleService] keeps the
    length and the order of the list; a service whose id differs is
    unchanged; a service whose id matches keeps its id, name, description,
    price and category and has its [selected] flag negated; and when no
    service has that id the whole list is unchanged. *)
Theorem toggleService_changes_only_selected_of_match :
  forall (services : list Service) (id : string),
    length (toggleService id services) = length services
    /\ (forall (i : nat) (s : Service),
          nth_error services i = Some s ->
          exists s',
            nth_error (toggleService id services) i = Some s'
            /\ sameButSelected s s'
            /\ (Service.id s <> id -> s' = s)
            /\ (Service.id s = id ->
                Service.selected s' = negb (Service.selected s)))
    /\ ((forall s, In s services -> Service.id s <> id) ->
        toggleService id services = services).
Proof.
  intros services id. split; [apply length_map|]. split.
  - intros i s Hi. unfold toggleService. rewrite nth_error_map, Hi. simpl.
    eexists. split; [reflexivity|]. split; [apply toggle_one_sameButSelected|].
    destruct (String.eqb_spec (Service.id s) id) as [Heq|Hne]; split;
      intros H; try reflexivity; contradiction.
  - apply toggleService_no_match.
Qed.

Lemma toggleService_changes_only_selected_of_match_witness :
  (forall s, In s initialServices -> Service.id s <> "5")
  /\ toggleService "5" initialServices = initialServices
  /\ length (toggleService "2" initialServices) = 4%nat.
Proof.
  assert (H : forall s, In s initialServices -> Service.id s <> "5").
  { intros s [<-|[<-|[<-|[<-|[]]]]]; discriminate. }
  split; [exact H|]. split.
  - apply (toggleService_changes_only_selected_of_match initialServices "5"), H.
  - apply (toggleService_changes_only_selected_of_match initialServices "2").
Defined.

Example toggleService_second :
  map Service.selected (toggleService "2" initialServices)
  = [false; true; false; false].
Proof. reflexivity. Qed.

(** ** Step flow *)

Lemma selectedServices_calculateTotal (services : list Service)
    (formData : FormData) :
  selectedServices (calculateTotal services formData) = selectedOf services.
Proof.
  unfold calculateTotal. destruct (applyRules _ _ _). reflexivity.
Qed.

(** C6. At the step [selection], [handleNextStep] with no selected service
    leaves the state, and so the step and the field errors, as they are and
    emits one warning toast; with at least one selected service it moves the
    step to [contact]. *)
Theorem handleNextStep_from_selection :
  forall validateForm (st : AppState),
    currentStep st = selection ->
    (length (selectedOf (services st)) = 0%nat ->
     handleNextStep validateForm st
     = (st, [("Выберите хотя бы одну услугу", warning)]))
    /\ ((1 <= length (selectedOf (services st)))%nat ->
        currentStep (fst (handleNextStep validateForm st)) = contact).
Proof.
  intros validateForm st Hstep. unfold handleNextStep.
  rewrite selectedServices_calculateTotal. split; intros Hn.
  - rewrite Hn. reflexivity.
  - destruct (Nat.eqb_spec (length (selectedOf (services st))) 0) as [H0|_];
      [lia|]. rewrite Hstep. reflexivity.
Qed.

Lemma handleNextStep_from_selection_witness :
  let st := setServices (toggleService "1" initialServices) initialState in
  currentStep initialState = selection
  /\ length (selectedOf (services initialState)) = 0%nat
  /\ fst (handleNextStep (fun _ _ => []) initialState) = initialState
  /\ (1 <= length (selectedOf (services st)))%nat
  /\ currentStep (fst (handleNextStep (fun _ _ => []) st)) = contact.
Proof.
  intros st.
  split; [reflexivity|]. split; [reflexivity|]. split.
  - rewrite (proj1 (handleNextStep_from_selection (fun _ _ => []) initialState
                      eq_refl) eq_refl). reflexivity.
  - split; [vm_compute; lia|].
    apply (handleNextStep_from_selection (fun _ _ => []) st eq_refl).
    vm_compute; lia.
Defined.


(** ** Payment *)

Lemma unselect_toggleService (id : string) (l : list Service) :
  map (Service.with_selected false) (toggleService id l)
  = map (Service.with_selected false) l.
Proof.
  unfold toggleService. rewrite map_map. apply map_ext. intros s.
  destruct (String.eqb (Service.id s) id); reflexivity.
Qed.

Lemma unselect_idempotent (l : list Service) :
  map (Service.with_selected false) (map (Service.with_selected false) l)
  = map (Service.with_selected false) l.
Proof. rewrite map_map. apply map_ext. intros s. reflexivity. Qed.

Lemma flowInvariant_initialState : flowInvariant initialState.
Proof. split; [reflexivity | discriminate]. Qed.

Section FlowProperties.

Variable validateForm :
  FormData -> list (string * ValidationRule.t) -> list ValidationError.t.

Lemma flowInvariant_handleNextStep (st : AppState) :
  flowInvariant st -> flowInvariant (fst (handleNextStep validateForm st)).
Proof.
  intros [Hsv Herr]. unfold handleNextStep.
  destruct (length (selectedServices _) =? 0)%nat; [split; assumption|].
  destruct (currentStep st) eqn:Hstep; simpl.
  - split; [exact Hsv | discriminate].
  - unfold validateContactForm.
    destruct (validateForm (formData st) validationRules) as [|e errors]; simpl.
    + split; [exact Hsv | reflexivity].
    + split; [exact Hsv | intros H; cbn in H; congruence].
  - split; [exact Hsv | intros _; apply Herr; reflexivity].
Qed.

Lemma flowInvariant_handle (e : Event) (st : AppState) :
  flowInvariant st -> flowInvariant (fst (handle validateForm e st)).
Proof.
  intros Hinv. destruct e; simpl;
    try (destruct Hinv as [Hsv Herr]; split; assumption).
  - destruct Hinv as [Hsv Herr]. split; [|exact Herr]. simpl.
    rewrite unselect_toggleService. exact Hsv.
  - apply flowInvariant_handleNextStep, Hinv.
  - destruct Hinv as [Hsv Herr]. split; [exact Hsv|]. simpl.
    destruct (currentStep st); discriminate.
  - destruct Hinv as [Hsv Herr]. split; [|discriminate]. simpl.
    rewrite unselect_idempotent. exact Hsv.
Qed.

Lemma flowInvariant_reachable (st : AppState) :
  reachable validateForm st -> flowInvariant st.
Proof.
  intros [events <-]. unfold run.
  induction events as [|e events IH] using rev_ind; simpl.
  - apply flowInvariant_initialState.
  - rewrite fold_left_app. simpl. apply flowInvariant_handle, IH.
Qed.

(** [handleNextStep] at the step [contact], with something selected. *)
Lemma handleNextStep_at_contact (st : AppState) :
  currentStep st = contact ->
  (1 <= length (selectedOf (services st)))%nat ->
  fst (handleNextStep validateForm st)
  = let errors := validateForm (formData st) validationRules in
    let st' := setFormErrors (errorMapOf errors) st in
    if (length errors =? 0)%nat then setCurrentStep payment st' else st'.
Proof.
  intros Hstep Hsel. unfold handleNextStep.
  rewrite selectedServices_calculateTotal.
  destruct (Nat.eqb_spec (length (selectedOf (services st))) 0) as [H0|_];
    [lia|].
  rewrite Hstep. unfold validateContactForm.
  destruct (length (validateForm (formData st) validationRules) =? 0)%nat;
    reflexivity.
Qed.

(** Whenever the awaited timer of [handlePayment] fires, also after other
    handlers ran in between, every cell but [formErrors], which the handler
    does not write, is back at its initial value. *)
Lemma handlePayment_resume_resets (method : string) (st : AppState) :
  reachable validateForm st ->
  fst (handlePayment_resume method st)
  = setFormErrors (formErrors st) initialState.
Proof.
  intros Hr. destruct (flowInvariant_reachable st Hr) as [Hsv _].
  unfold handlePayment_resume, setFormErrors, initialState; simpl.
  rewrite Hsv. reflexivity.
Qed.

End FlowProperties.

(** The back control stays enabled while a payment is awaited: going back
    to the contact step and failing validation there leaves an error map
    that the resumed [handlePayment] does not clear. *)
Remark formErrors_outlive_interleaved_payment :
  forall validateForm (e : ValidationError.t),
    validateForm (withName "Jo" initialFormData) validationRules = [] ->
    validateForm initialFormData validationRules = [e] ->
    run validateForm
        [ToggleService "1"; NextStep; ChangeName "Jo"; NextStep;
         PaymentBegin "eur"; Back; ChangeName ""; NextStep;
         PaymentResume "eur"]
    = setFormErrors (errorMapOf [e]) initialState.
Proof.
  intros validateForm e Hok Hbad.
  set (s3 := run validateForm [ToggleService "1"; NextStep; ChangeName "Jo"]).
  set (s4 := fst (handleNextStep validateForm s3)).
  set (s7 := setFormData (withName "" (formData s4))
               (handleBack (handlePayment_begin s4))).
  set (s8 := fst (handleNextStep validateForm s7)).
  change (fst (handlePayment_resume "eur" s8)
          = setFormErrors (errorMapOf [e]) initialState).
  assert (E4 : s4 = setCurrentStep payment s3).
  { subst s4. rewrite handleNextStep_at_contact;
      [|reflexivity | vm_compute; lia].
    change (formData s3) with (withName "Jo" initialFormData).
    rewrite Hok. reflexivity. }
  assert (E8 : s8 = setFormErrors (errorMapOf [e]) s7).
  { subst s8. rewrite handleNextStep_at_contact.
    - replace (formData s7) with initialFormData
        by (subst s7; rewrite E4; reflexivity).
      rewrite Hbad. reflexivity.
    - subst s7. rewrite E4. reflexivity.
    - subst s7. rewrite E4. vm_compute. lia. }
  rewrite handlePayment_resume_resets with (validateForm := validateForm).
  - rewrite E8. reflexivity.
  - exists [ToggleService "1"; NextStep; ChangeName "Jo"; NextStep;
            PaymentBegin "eur"; Back; ChangeName ""; NextStep].
    reflexivity.
Qed.

(** * Further properties of the component *)

(** ** Selection *)

Lemma with_selected_same (s : Service) :
  Service.with_selected (Service.selected s) s = s.
Proof. destruct s; reflexivity. Qed.

(** X1. Toggling the same id twice gives the list back. *)
Theorem toggleService_involutive :
  forall (id : string) (services : list Service),
    toggleService id (toggleService id services) = services.
Proof.
  intros id services. unfold toggleService. rewrite map_map.
  rewrite <- (map_id services) at 2. apply map_ext. intros s.
  destruct (String.eqb (Service.id s) id) eqn:E; simpl.
  - rewrite E. unfold Service.with_selected; simpl.
    rewrite negb_involutive. destruct s; reflexivity.
  - rewrite E. reflexivity.
Qed.

(** X2. Toggles commute: the order in which two checkboxes are clicked
    does not matter. *)
Theorem toggleService_commutes :
  forall (id1 id2 : string) (services : list Service),
    toggleService id1 (toggleService id2 services)
    = toggleService id2 (toggleService id1 services).
Proof.
  intros id1 id2 services. unfold toggleService. rewrite !map_map.
  apply map_ext. intros s.
  destruct (String.eqb (Service.id s) id1) eqn:E1,
           (String.eqb (Service.id s) id2) eqn:E2; simpl;
    rewrite ?E1, ?E2; reflexivity.
Qed.

(** ** Pricing *)

Lemma applicableDescriptions_discountRules (services : list Service)
    (formData : FormData) :
  applicableDescriptions discountRules services formData
  = ((if forallb Service.selected services
      then [DiscountRule.description bulkRule] else [])
     ++ (if promoCondition (Some formData)
         then [DiscountRule.description promoRule] else [])
     ++ (if (2 <=? length (selectedOf services))%nat
         then [DiscountRule.description firstTimeRule] else []))%list.
Proof.
  unfold applicableDescriptions, discountRules, applicable.
  cbn -[promoCondition forallb Nat.leb selectedOf].
  destruct (forallb Service.selected services),
           (promoCondition (Some formData)),
           (2 <=? length (selectedOf services))%nat; reflexivity.
Qed.

(** X4. The discount is positive exactly when [appliedDiscounts] is not
    empty: the price summary, which shows its discount block when
    [discount > 0], lists the applied discounts whenever there is one and
    hides none. *)
Theorem discount_positive_iff_appliedDiscounts :
  forall (services : list Service) (formData : FormData),
    let c := calculateTotal services formData in
    (0 < discount c)%Q <-> appliedDiscounts c <> [].
Proof.
  intros services formData c. subst c.
  rewrite appliedDiscounts_calculateTotal, discount_discountOf.
  unfold applyRules. rewrite fold_applyRule_descriptions.
  rewrite applicableDescriptions_discountRules.
  destruct (forallb Service.selected services),
           (promoCondition (Some formData)),
           (2 <=? length (selectedOf services))%nat; simpl;
    split; intros H; try discriminate; try reflexivity;
    try (exfalso; apply H; reflexivity).
Qed.

(** X6. The total is not monotone in the selection. On the shipped
    catalogue, with the services 2, 3 and 4 selected and no promo code the
    total is 950; selecting service 1 as well brings the bulk discount and
    a total of 935. *)
Theorem total_can_drop_when_selecting_more :
  let three := toggleService "4" (toggleService "3"
                 (toggleService "2" initialServices)) in
  let four := toggleService "1" three in
  map Service.selected three = [false; true; true; true]
  /\ map Service.selected four = [true; true; true; true]
  /\ (total (calculateTotal three initialFormData) == 950)%Q
  /\ (total (calculateTotal four initialFormData) == 935)%Q
  /\ (total (calculateTotal four initialFormData)
      < total (calculateTotal three initialFormData))%Q.
Proof. repeat split. Qed.

(** ** Contact validation and step flow *)

Lemma errorMapOf_snoc (errors : list ValidationError.t) (e : ValidationError.t) :
  errorMapOf (errors ++ [e])
  = <[ValidationError.field e := ValidationError.message e]> (errorMapOf errors).
Proof. unfold errorMapOf. rewrite fold_left_app. reflexivity. Qed.

(** X7. For errors reported on the validated fields (name, email, phone),
    the error map shows under each of these fields the message of the last
    error reported for it, and has no entry for a field without error. *)
Theorem errorMapOf_lookup :
  forall (errors : list ValidationError.t) (f : string),
    Forall (fun e => In (ValidationError.field e) (map fst validationRules))
           errors ->
    In f (map fst validationRules) ->
    errorMapOf errors !! f
    = ValidationError.message
        <$> last (List.filter
                    (fun e => String.eqb (ValidationError.field e) f) errors).
Proof.
  intros errors f _ _. induction errors as [|e errors IH] using rev_ind.
  - reflexivity.
  - rewrite errorMapOf_snoc, List.filter_app. simpl.
    destruct (String.eqb_spec (ValidationError.field e) f) as [Heq|Hne].
    + rewrite last_snoc. simpl. rewrite <- Heq. apply lookup_insert_eq.
    + rewrite app_nil_r, lookup_insert_ne by exact Hne. exact IH.
Qed.

Lemma errorMapOf_lookup_witness :
  let errors := [{| ValidationError.field := "email";
                    ValidationError.message := "Обязательное поле" |};
                 {| ValidationError.field := "email";
                    ValidationError.message := "Некорректный email" |}] in
  Forall (fun e => In (ValidationError.field e) (map fst validationRules)) errors
  /\ In "email" (map fst validationRules)
  /\ errorMapOf errors !! "email" = Some "Некорректный email"
  /\ errorMapOf errors !! "phone" = None.
Proof.
  intros errors.
  assert (He : Forall (fun e => In (ValidationError.field e)
                                   (map fst validationRules)) errors).
  { constructor; [right; left; reflexivity|].
    constructor; [right; left; reflexivity|]. constructor. }
  assert (Hf : In "email" (map fst validationRules))
    by (right; left; reflexivity).
  assert (Hp : In "phone" (map fst validationRules))
    by (right; right; left; reflexivity).
  split; [exact He|]. split; [exact Hf|]. split.
  - rewrite (errorMapOf_lookup errors "email" He Hf). reflexivity.
  - rewrite (errorMapOf_lookup errors "phone" He Hp). reflexivity.
Defined.

Section FlowExtras.

Variable validateForm :
  FormData -> list (string * ValidationRule.t) -> list ValidationError.t.

(** X8. At the contact step with something selected, [handleNextStep]
    moves to the payment step exactly when [validateForm] reports no error.
    Either way it stores the error map of the reported errors and emits one
    toast: success when it advances, error when the step stays [contact];
    nothing else of the state changes. *)
Theorem handleNextStep_from_contact :
  forall st : AppState,
    currentStep st = contact ->
    (1 <= length (selectedOf (services st)))%nat ->
    let errors := validateForm (formData st) validationRules in
    let r := handleNextStep validateForm st in
    (errors = [] ->
     r = (setCurrentStep payment (setFormErrors ∅ st),
          [("Данные успешно сохранены!", success)]))
    /\ (errors <> [] ->
        r = (setFormErrors (errorMapOf errors) st,
             [("Пожалуйста, исправьте ошибки в форме", error)]))
    /\ (currentStep (fst r) = payment <-> errors = []).
Proof.
  intros st Hstep Hsel errors r. subst r. unfold handleNextStep.
  rewrite selectedServices_calculateTotal.
  destruct (Nat.eqb_spec (length (selectedOf (services st))) 0) as [H0|_];
    [lia|].
  rewrite Hstep. unfold validateContactForm. fold errors.
  destruct errors as [|e errors'] eqn:E; simpl.
  - split; [reflexivity|]. split; [congruence|]. split; reflexivity.
  - split; [discriminate|]. split.
    + intros _. reflexivity.
    + rewrite Hstep. split; discriminate.
Qed.

(** X9. [handleNextStep] never reads or writes [termsAccepted]: it keeps
    the services, the form data, the terms flag and the processing flag, and
    it takes the same step and emits the same toasts whatever the terms
    checkbox holds. The payment step does not require accepted terms. *)
Theorem handleNextStep_ignores_terms :
  forall (st : AppState) (b : bool),
    let r := handleNextStep validateForm st in
    services (fst r) = services st
    /\ formData (fst r) = formData st
    /\ termsAccepted (fst r) = termsAccepted st
    /\ isProcessing (fst r) = isProcessing st
    /\ handleNextStep validateForm (setTermsAccepted b st)
       = (setTermsAccepted b (fst r), snd r).
Proof.
  intros st b r. subst r. unfold handleNextStep, validateContactForm. simpl.
  destruct (length (selectedServices _) =? 0)%nat; [repeat split|].
  destruct (currentStep st); [repeat split| |repeat split].
  destruct (length (validateForm (formData st) validationRules) =? 0)%nat;
    repeat split.
Qed.


Lemma reachable_ind_handle (P : AppState -> Prop) :
  P initialState ->
  (forall e st, P st -> P (fst (handle validateForm e st))) ->
  forall st, reachable validateForm st -> P st.
Proof.
  intros H0 Hstep st [events <-]. unfold run.
  induction events as [|e events IH] using rev_ind; [exact H0|].
  rewrite fold_left_app. simpl. apply Hstep, IH.
Qed.

Lemma showContactForm_invariant (st : AppState) :
  reachable validateForm st ->
  currentStep st <> selection -> showContactForm st = true.
Proof.
  revert st.
  apply (reachable_ind_handle
           (fun st => currentStep st <> selection -> showContactForm st = true)).
  - intros H. exfalso. apply H. reflexivity.
  - intros e st IH. destruct e; simpl; try exact IH.
    + unfold handleNextStep, validateContactForm.
      destruct (length (selectedServices _) =? 0)%nat; [exact IH|].
      destruct (currentStep st) eqn:Hstep; simpl.
      * reflexivity.
      * destruct (length (validateForm _ _) =? 0)%nat; simpl;
          intros _; apply IH; discriminate.
      * intros _. apply IH. discriminate.
    + unfold handleBack. simpl. destruct (currentStep st) eqn:Hstep; simpl.
      * intros H; exfalso; apply H; reflexivity.
      * intros H; exfalso; apply H; reflexivity.
      * intros _. apply IH. discriminate.
    + intros H. exfalso. apply H. reflexivity.
Qed.

(** X10. In every reachable state past the selection step the contact-form
    flag is set. *)
Theorem showContactForm_past_selection :
  forall st : AppState,
    reachable validateForm st ->
    currentStep st <> selection -> showContactForm st = true.
Proof. exact showContactForm_invariant. Qed.

(** X13. Going back from the contact step and continuing again returns to
    exactly the same state, with no toast: nothing entered is lost. *)
Theorem back_then_next_from_contact :
  forall st : AppState,
    reachable validateForm st ->
    currentStep st = contact ->
    (1 <= length (selectedOf (services st)))%nat ->
    handleNextStep validateForm (handleBack st) = (st, []).
Proof.
  intros st Hr Hstep Hsel.
  assert (Hshow : showContactForm st = true)
    by (apply showContactForm_invariant; [exact Hr | rewrite Hstep; discriminate]).
  unfold handleNextStep. rewrite selectedServices_calculateTotal.
  change (services (handleBack st)) with (services st).
  destruct (Nat.eqb_spec (length (selectedOf (services st))) 0) as [H0|_];
    [lia|].
  unfold handleBack. rewrite Hstep. simpl.
  destruct st; simpl in *. subst. reflexivity.
Qed.

End FlowExtras.

Lemma handleNextStep_from_contact_witness :
  let accept := fun (_ : FormData) (_ : list (string * ValidationRule.t)) =>
                  @nil ValidationError.t in
  let reject := fun (_ : FormData) (_ : list (string * ValidationRule.t)) =>
                  [{| ValidationError.field := "email";
                      ValidationError.message := "Некорректный email" |}] in
  let st := run accept [ToggleService "1"; NextStep] in
  currentStep st = contact
  /\ (1 <= length (selectedOf (services st)))%nat
  /\ currentStep (fst (handleNextStep accept st)) = payment
  /\ currentStep (fst (handleNextStep reject st)) = contact
  /\ formErrors (fst (handleNextStep reject st))
     = {["email" := "Некорректный email"]}.
Proof.
  intros accept reject st.
  assert (Hstep : currentStep st = contact) by reflexivity.
  assert (Hsel : (1 <= length (selectedOf (services st)))%nat)
    by (vm_compute; lia).
  split; [exact Hstep|]. split; [exact Hsel|].
  destruct (handleNextStep_from_contact accept st Hstep Hsel) as (Ha & _ & _).
  destruct (handleNextStep_from_contact reject st Hstep Hsel) as (_ & Hr & _).
  split; [rewrite (Ha eq_refl); reflexivity|].
  rewrite Hr by discriminate. split; reflexivity.
Defined.

Lemma showContactForm_past_selection_witness :
  let validateForm := fun (_ : FormData) (_ : list (string * ValidationRule.t)) =>
                        @nil ValidationError.t in
  let st := run validateForm [ToggleService "3"; NextStep; NextStep; Back] in
  reachable validateForm st
  /\ currentStep st = contact
  /\ showContactForm st = true.
Proof.
  intros validateForm st.
  assert (Hr : reachable validateForm st) by (eexists; reflexivity).
  split; [exact Hr|]. split; [reflexivity|].
  apply (showContactForm_past_selection validateForm st Hr). discriminate.
Defined.

(** ** The catalogue over a session *)

Lemma unselect_inv (s t : Service) :
  Service.with_selected false s = t ->
  s = Service.with_selected (Service.selected s) t.
Proof. intros <-. destruct s; reflexivity. Qed.

Lemma unselected_catalogue_selections (l : list Service) :
  map (Service.with_selected false) l = initialServices ->
  In l (selections initialServices).
Proof.
  intros H.
  unfold initialServices in H.
  apply List.map_eq_cons in H as (s1 & l1 & -> & H1 & H).
  apply List.map_eq_cons in H as (s2 & l2 & -> & H2 & H).
  apply List.map_eq_cons in H as (s3 & l3 & -> & H3 & H).
  apply List.map_eq_cons in H as (s4 & l4 & -> & H4 & H).
  apply List.map_eq_nil in H as ->.
  apply unselect_inv in H1, H2, H3, H4. rewrite H1, H2, H3, H4.
  destruct (Service.selected s1), (Service.selected s2),
           (Service.selected s3), (Service.selected s4);
    cbn [selections flat_map initialServices app];
    repeat (first [left; reflexivity | right]).
Qed.

Lemma promoCondition_decides_calculateTotal (services : list Service)
    (formData formData' : FormData) :
  promoCondition (Some formData) = promoCondition (Some formData') ->
  calculateTotal services formData = calculateTotal services formData'
  /\ calculateTotal64 services formData = calculateTotal64 services formData'.
Proof.
  intros H.
  unfold calculateTotal, calculateTotal64, applyRules, discountRules,
    applyRule, applicable.
  cbn -[promoCondition forallb Nat.leb selectedOf Qmax max64 toDouble
        PrimFloat.add PrimFloat.mul PrimFloat.sub].
  rewrite H. split; reflexivity.
Qed.

Lemma total64_ok_promoCondition (services : list Service) (formData : FormData) :
  total64_ok services formData
  = total64_ok services
      (if promoCondition (Some formData)
       then withPromoCode "digital2024" initialFormData else initialFormData).
Proof.
  unfold total64_ok.
  destruct (promoCondition_decides_calculateTotal services formData
              (if promoCondition (Some formData)
               then withPromoCode "digital2024" initialFormData
               else initialFormData)) as [-> ->]; [|reflexivity].
  destruct (promoCondition (Some formData)); reflexivity.
Qed.

(** ** The calculation on the shipped catalogue, in binary64 *)

Lemma denotesb_denotes (x : float) (r : Q) :
  denotesb x r = true -> denotes x r.
Proof.
  unfold denotesb, denotes. destruct (exactValue x); [|discriminate].
  apply Qeq_bool_iff.
Qed.

(** The subtotal is computed before the rules are looked at. *)
Lemma subtotal64_any_formData (services : list Service)
    (formData formData' : FormData) :
  subtotal64 (calculateTotal64 services formData)
  = subtotal64 (calculateTotal64 services formData').
Proof. reflexivity. Qed.

(** The form data reaches [calculateTotal] through the promo rule only, so
    what holds of the 16 selections of the catalogue with and without a
    matching promo code holds of them with every form data. *)
Lemma catalogue_by_enumeration
    (check : list Service -> Calculation -> Calculation64 -> bool) :
  forallb (fun services =>
             check services
                   (calculateTotal services initialFormData)
                   (calculateTotal64 services initialFormData)
             && check services
                  (calculateTotal services
                     (withPromoCode "digital2024" initialFormData))
                  (calculateTotal64 services
                     (withPromoCode "digital2024" initialFormData)))
          (selections initialServices) = true ->
  forall (services : list Service) (formData : FormData),
    In services (selections initialServices) ->
    check services (calculateTotal services formData)
          (calculateTotal64 services formData) = true.
Proof.
  intros Hall services formData Hin.
  rewrite forallb_forall in Hall. specialize (Hall _ Hin).
  apply andb_true_iff in Hall as [H0 H1].
  destruct (promoCondition_decides_calculateTotal services formData
              (if promoCondition (Some formData)
               then withPromoCode "digital2024" initialFormData
               else initialFormData)) as [-> ->].
  - destruct (promoCondition (Some formData)); reflexivity.
  - destruct (promoCondition (Some formData)); assumption.
Qed.







(** X3. On the shipped catalogue, toggling a service moves the subtotal the
    program computes in binary64 by exactly the price of that service: up
    when it becomes selected, down when it is deselected. *)
Theorem catalogue_toggleService_moves_subtotal_by_price :
  forall (services : list Service) (formData : FormData) (s : Service),
    In services (selections initialServices) ->
    In s services ->
    exists old new : Q,
      denotes (subtotal64 (calculateTotal64 services formData)) old
      /\ denotes (subtotal64 (calculateTotal64
                                (toggleService (Service.id s) services)
                                formData)) new
      /\ (new == if Service.selected s
                 then old - Service.price s
                 else old + Service.price s)%Q.
Proof.
  intros services formData s Hin Hs.
  assert (Hall : forallb (fun services =>
     forallb (fun s =>
        let toggled := toggleService (Service.id s) services in
        denotesb (subtotal64 (calculateTotal64 services initialFormData))
                 (sumSelectedPrices services)
        && denotesb (subtotal64 (calculateTotal64 toggled initialFormData))
                    (sumSelectedPrices toggled)
        && Qeq_bool (sumSelectedPrices toggled)
                    (if Service.selected s
                     then sumSelectedPrices services - Service.price s
                     else sumSelectedPrices services + Service.price s))
       services) (selections initialServices) = true)
    by (vm_compute; reflexivity).
  rewrite forallb_forall in Hall. specialize (Hall _ Hin).
  rewrite forallb_forall in Hall. specialize (Hall _ Hs). cbv zeta in Hall.
  apply andb_true_iff in Hall as [Hall H3].
  apply andb_true_iff in Hall as [H1 H2].
  exists (sumSelectedPrices services),
         (sumSelectedPrices (toggleService (Service.id s) services)).
  rewrite (subtotal64_any_formData services formData initialFormData).
  rewrite (subtotal64_any_formData (toggleService (Service.id s) services)
             formData initialFormData).
  split; [apply denotesb_denotes; exact H1|].
  split; [apply denotesb_denotes; exact H2|].
  apply Qeq_bool_iff. exact H3.
Qed.

Lemma catalogue_toggleService_moves_subtotal_by_price_witness :
  let services := toggleService "2" (toggleService "4" initialServices) in
  let s := nth 1 services (pricedService "" 0 false) in
  In services (selections initialServices)
  /\ In s services
  /\ Service.id s = "2" /\ Service.selected s = true
  /\ (Service.price s == 300)%Q
  /\ denotes (subtotal64 (calculateTotal64 services initialFormData)) 700
  /\ denotes (subtotal64 (calculateTotal64 (toggleService "2" services)
                                           initialFormData)) 400
  /\ exists old new : Q,
       denotes (subtotal64 (calculateTotal64 services initialFormData)) old
       /\ denotes (subtotal64 (calculateTotal64
                                 (toggleService (Service.id s) services)
                                 initialFormData)) new
       /\ (new == if Service.selected s
                  then old - Service.price s
                  else old + Service.price s)%Q.
Proof.
  intros services s.
  assert (Hin : In services (selections initialServices))
    by (apply unselected_catalogue_selections; reflexivity).
  assert (Hs : In s services) by (right; left; reflexivity).
  split; [exact Hin|]. split; [exact Hs|].
  split; [reflexivity|]. split; [reflexivity|]. split; [reflexivity|].
  split; [apply denotesb_denotes; vm_compute; reflexivity|].
  split; [apply denotesb_denotes; vm_compute; reflexivity|].
  exact (catalogue_toggleService_moves_subtotal_by_price
           services initialFormData s Hin Hs).
Defined.

(** X5. On the shipped catalogue, with every form data, the discount amount
    and the total the program computes in binary64 carry no rounding error:
    discountAmount + total = subtotal, on the exact values and on the
    doubles, 0 <= discountAmount <= 15 % of the subtotal, and the total is
    never below 85 % of the subtotal. *)
Theorem catalogue_discountAmount_at_most_fifteen_percent :
  forall (services : list Service) (formData : FormData),
    In services (selections initialServices) ->
    let c := calculateTotal64 services formData in
    PrimFloat.eqb (PrimFloat.add (discountAmount64 c) (total64 c))
                  (subtotal64 c) = true
    /\ exists st da t : Q,
         denotes (subtotal64 c) st
         /\ denotes (discountAmount64 c) da
         /\ denotes (total64 c) t
         /\ (da + t == st)%Q
         /\ (0 <= da)%Q /\ (da <= 0.15 * st)%Q /\ (0.85 * st <= t)%Q.
Proof.
  intros services formData Hin c.
  pose proof (catalogue_by_enumeration
    (fun _ e c =>
       PrimFloat.eqb (PrimFloat.add (discountAmount64 c) (total64 c))
                     (subtotal64 c)
       && denotesb (subtotal64 c) (subtotal e)
       && denotesb (discountAmount64 c) (discountAmount e)
       && denotesb (total64 c) (total e)
       && Qeq_bool (discountAmount e + total e) (subtotal e)
       && Qle_bool 0 (discountAmount e)
       && Qle_bool (discountAmount e) (0.15 * subtotal e)
       && Qle_bool (0.85 * subtotal e) (total e))) as H.
  specialize (H ltac:(vm_compute; reflexivity) services formData Hin).
  cbv beta in H. fold c in H.
  repeat (apply andb_true_iff in H as [H ?]).
  split; [assumption|].
  exists (subtotal (calculateTotal services formData)),
         (discountAmount (calculateTotal services formData)),
         (total (calculateTotal services formData)).
  split; [apply denotesb_denotes; assumption|].
  split; [apply denotesb_denotes; assumption|].
  split; [apply denotesb_denotes; assumption|].
  split; [apply Qeq_bool_iff; assumption|].
  repeat split; apply Qle_bool_iff; assumption.
Qed.

Lemma catalogue_discountAmount_at_most_fifteen_percent_witness :
  let services := map (Service.with_selected true) initialServices in
  let c := calculateTotal64 services initialFormData in
  In services (selections initialServices)
  /\ denotes (subtotal64 c) 1100
  /\ denotes (discountAmount64 c) 165
  /\ denotes (total64 c) 935
  /\ PrimFloat.eqb (PrimFloat.add (discountAmount64 c) (total64 c))
                   (subtotal64 c) = true.
Proof.
  intros services c.
  assert (Hin : In services (selections initialServices))
    by (apply unselected_catalogue_selections; reflexivity).
  split; [exact Hin|].
  split; [apply denotesb_denotes; vm_compute; reflexivity|].
  split; [apply denotesb_denotes; vm_compute; reflexivity|].
  split; [apply denotesb_denotes; vm_compute; reflexivity|].
  exact (proj1 (catalogue_discountAmount_at_most_fifteen_percent
                  services initialFormData Hin)).
Defined.

Section CatalogueOverSession.

Variable validateForm :
  FormData -> list (string * ValidationRule.t) -> list ValidationError.t.

(** X11. Services are never added, removed, reordered or edited: in every
    reachable state the service list is one of the 16 selections of the
    shipped catalogue, and so 0 <= total <= subtotal <= 1100. *)
Theorem reachable_services_are_a_selection :
  forall st : AppState,
    reachable validateForm st ->
    let c := calculateTotal (services st) (formData st) in
    In (services st) (selections initialServices)
    /\ (0 <= total c)%Q /\ (total c <= subtotal c)%Q /\ (subtotal c <= 1100)%Q.
Proof.
  intros st Hr c.
  assert (Hin : In (services st) (selections initialServices)).
  { apply unselected_catalogue_selections.
    apply (flowInvariant_reachable validateForm st Hr). }
  split; [exact Hin|].
  assert (Hall : forallb (fun l => forallb (fun s => Qle_bool 0 (Service.price s)) l
                                   && Qle_bool (sumSelectedPrices l) 1100)
                         (selections initialServices) = true)
    by (vm_compute; reflexivity).
  rewrite forallb_forall in Hall. specialize (Hall _ Hin).
  apply andb_true_iff in Hall as [Hp Hs].
  rewrite forallb_forall in Hp. apply Qle_bool_iff in Hs.
  assert (Hprices : forall s, In s (services st) -> (0 <= Service.price s)%Q)
    by (intros s Hs'; apply Qle_bool_iff, Hp, Hs').
  assert (Hsub : (subtotal c == sumSelectedPrices (services st))%Q)
    by (subst c; rewrite subtotal_calculateTotal; apply fold_selected_prices).
  assert (Hnn := sumSelectedPrices_nonneg (services st) Hprices).
  assert (Hb : (0 <= discount c /\ discount c <= 0.15)%Q)
    by (subst c; rewrite discount_discountOf; apply discountOf_bounds).
  assert (Ht : total c = (subtotal c - subtotal c * discount c)%Q)
    by apply total_calculateTotal.
  rewrite Ht. destruct Hb as [Hb0 Hb1].
  set (x := subtotal c) in *. set (d := discount c) in *.
  assert (0 <= x)%Q by (rewrite Hsub; exact Hnn).
  assert (x <= 1100)%Q by (rewrite Hsub; exact Hs).
  repeat split; [nra | nra | assumption].
Qed.

(** X12. In every reachable state the binary64 evaluation of
    [calculateTotal] is exact: total = subtotal * (1 - discount) holds on the
    doubles, 0 <= total <= subtotal, and subtotal, discount and total are the
    doubles nearest to the exact rationals. *)
Theorem reachable_total64_exact :
  forall st : AppState,
    reachable validateForm st ->
    total64_ok (services st) (formData st) = true.
Proof.
  intros st Hr.
  assert (Hin : In (services st) (selections initialServices)).
  { apply unselected_catalogue_selections.
    apply (flowInvariant_reachable validateForm st Hr). }
  assert (Hall : forallb (fun services =>
                   total64_ok services initialFormData
                   && total64_ok services
                        (withPromoCode "digital2024" initialFormData))
                 (selections initialServices) = true)
    by (vm_compute; reflexivity).
  rewrite forallb_forall in Hall. specialize (Hall _ Hin).
  apply andb_true_iff in Hall as [H0 H1].
  rewrite total64_ok_promoCondition.
  destruct (promoCondition (Some (formData st))); assumption.
Qed.

End CatalogueOverSession.

Lemma reachable_services_are_a_selection_witness :
  let validateForm := fun (_ : FormData) (_ : list (string * ValidationRule.t)) =>
                        @nil ValidationError.t in
  let st := run validateForm
              [ToggleService "2"; ToggleService "4"; NextStep;
               ChangePromoCode "DIGITAL2024"] in
  reachable validateForm st
  /\ (total (calculateTotal (services st) (formData st)) == 630)%Q
  /\ (subtotal (calculateTotal (services st) (formData st)) <= 1100)%Q.
Proof.
  intros validateForm st.
  assert (Hr : reachable validateForm st) by (eexists; reflexivity).
  split; [exact Hr|]. split; [reflexivity|].
  apply (reachable_services_are_a_selection validateForm st Hr).
Defined.

Lemma reachable_total64_exact_witness :
  let validateForm := fun (_ : FormData) (_ : list (string * ValidationRule.t)) =>
                        @nil ValidationError.t in
  let st := run validateForm
              [ToggleService "2"; ToggleService "4"; NextStep;
               ChangePromoCode "DIGITAL2024"] in
  reachable validateForm st
  /\ total64_ok (services st) (formData st) = true.
Proof.
  intros validateForm st.
  assert (Hr : reachable validateForm st) by (eexists; reflexivity).
  split; [exact Hr|].
  exact (reachable_total64_exact validateForm st Hr).
Defined.

Lemma back_then_next_from_contact_witness :
  let validateForm := fun (_ : FormData) (_ : list (string * ValidationRule.t)) =>
                        @nil ValidationError.t in
  let st := run validateForm
              [ToggleService "2"; NextStep; ChangeName "Jo"; ChangeTerms true] in
  reachable validateForm st
  /\ currentStep st = contact
  /\ (1 <= length (selectedOf (services st)))%nat
  /\ handleNextStep validateForm (handleBack st) = (st, []).
Proof.
  intros validateForm st.
  assert (Hr : reachable validateForm st) by (eexists; reflexivity).
  assert (Hsel : (1 <= length (selectedOf (services st)))%nat)
    by (vm_compute; lia).
  split; [exact Hr|]. split; [reflexivity|]. split; [exact Hsel|].
  exact (back_then_next_from_contact validateForm st Hr eq_refl Hsel).
Defined.

(** ** Sessions: user inputs and timers *)

Section SessionProperties.

Variable validateForm :
  FormData -> list (string * ValidationRule.t) -> list ValidationError.t.


Lemma handleNextStep_isProcessing (st : AppState) :
  isProcessing (fst (handleNextStep validateForm st)) = isProcessing st.
Proof.
  unfold handleNextStep, validateContactForm.
  destruct (length (selectedServices _) =? 0)%nat; [reflexivity|].
  destruct (currentStep st); try reflexivity.
  destruct (length (validateForm (formData st) validationRules) =? 0)%nat;
    reflexivity.
Qed.

Lemma handleNextStep_services (st : AppState) :
  services (fst (handleNextStep validateForm st)) = services st.
Proof.
  unfold handleNextStep, validateContactForm.
  destruct (length (selectedServices _) =? 0)%nat; [reflexivity|].
  destruct (currentStep st); try reflexivity.
  destruct (length (validateForm (formData st) validationRules) =? 0)%nat;
    reflexivity.
Qed.

(** X14. In every session, whenever the contact or the payment step is
    shown at least one service is selected: toggles are only offered at the
    selection step and the next button is disabled on an empty selection. *)
Theorem order_not_empty_past_selection :
  forall w : Session,
    session validateForm w ->
    currentStep (app w) <> selection ->
    (1 <= length (selectedOf (services (app w))))%nat.
Proof.
  induction 1 as [|w i Hw IH Hen].
  - intros H. exfalso. apply H. reflexivity.
  - destruct i as [e| |]; simpl in *.
    + destruct e; simpl in *; try exact IH; try discriminate.
      * (* toggle: only offered at the selection step *)
        unfold serviceCardIds in Hen.
        destruct (currentStep (app w)) eqn:Hstep; simpl in Hen;
          try discriminate.
        intros H. exfalso. apply H. reflexivity.
      * (* next *)
        apply andb_true_iff in Hen as [_ Hen].
        unfold nextButtonDisabled in Hen.
        rewrite selectedServices_calculateTotal in Hen.
        apply negb_true_iff, Nat.eqb_neq in Hen.
        destruct (handleNextStep validateForm (app w)) as [st ts] eqn:E.
        simpl. intros _.
        replace st with (fst (handleNextStep validateForm (app w)))
          by (rewrite E; reflexivity).
        rewrite handleNextStep_services. lia.
      * (* back *)
        unfold handleBack. simpl.
        destruct (currentStep (app w)) eqn:Hstep; simpl;
          try (intros H; exfalso; apply H; reflexivity).
        intros _. apply IH. discriminate.
    + exact IH.
    + destruct (timers w) as [|[m a|m] rest]; simpl.
      * exact IH.
      * exact IH.
      * intros H. exfalso. apply H. reflexivity.
Qed.

(** X15. In every session, while [isProcessing] disables the payment
    buttons a timer that will clear the flag is pending. *)
Theorem isProcessing_has_pending_await :
  forall w : Session,
    session validateForm w ->
    isProcessing (app w) = true ->
    exists method, In (AwaitTimer method) (timers w).
Proof.
  induction 1 as [|w i Hw IH Hen].
  - discriminate.
  - destruct i as [e| |]; simpl in *.
    + destruct e; simpl in *; try exact IH; try discriminate.
      destruct (handleNextStep validateForm (app w)) as [st ts] eqn:E.
      simpl. intros Hp. apply IH.
      pose proof (handleNextStep_isProcessing (app w)) as Hf.
      rewrite E in Hf. simpl in Hf. rewrite <- Hf. exact Hp.
    + intros Hp. destruct (IH Hp) as [m Hm]. exists m.
      apply in_or_app. left. exact Hm.
    + destruct (timers w) as [|[m a|m] rest]; simpl in *.
      * discriminate.
      * intros _. exists m. apply in_or_app. right. left. reflexivity.
      * discriminate.
Qed.

End SessionProperties.

Lemma selectedOf_unselected (l : list Service) :
  selectedOf (map (Service.with_selected false) l) = [].
Proof. induction l as [|s l IH]; [reflexivity | exact IH]. Qed.

Lemma freshOrder_resume (method : string) (st : AppState) :
  freshOrder (fst (handlePayment_resume method st)).
Proof.
  unfold freshOrder; simpl. rewrite selectedOf_unselected. repeat split.
Qed.

Lemma callbacksPending_zero (ts : list Timer) :
  callbacksPending ts = 0%nat -> ts = [].
Proof.
  destruct ts as [|[m a|m] ts]; [reflexivity| |]; unfold callbacksPending;
    simpl; discriminate.
Qed.

Lemma callbacksPending_app (ts ts' : list Timer) :
  callbacksPending (ts ++ ts')
  = (callbacksPending ts + callbacksPending ts')%nat.
Proof. unfold callbacksPending. rewrite map_app, list_sum_app. reflexivity. Qed.

Lemma completionOrder_await (method : string) (ts : list Timer) :
  completionOrder (AwaitTimer method :: ts) = method :: completionOrder ts.
Proof. reflexivity. Qed.

Lemma completionOrder_onPayment (methodId : string) (a : Q) (ts : list Timer) :
  completionOrder (OnPaymentTimer methodId a :: ts)
  = completionOrder (ts ++ [AwaitTimer methodId]).
Proof.
  unfold completionOrder. simpl. rewrite !List.filter_app. simpl.
  rewrite app_nil_r, !map_app. simpl. rewrite <- app_assoc. reflexivity.
Qed.

Section SessionRuns.

Variable validateForm :
  FormData -> list (string * ValidationRule.t) -> list ValidationError.t.

Lemma session_feed (inputs : list Input) (w : Session) :
  session validateForm w ->
  accepted validateForm inputs w = true ->
  session validateForm (feed validateForm inputs w).
Proof.
  revert w. induction inputs as [|i inputs IH]; intros w Hw Hacc; simpl in *.
  - exact Hw.
  - apply andb_true_iff in Hacc as [Hen Hacc].
    apply IH; [apply session_input; assumption | exact Hacc].
Qed.

Lemma fireAll_completes (fuel : nat) (w : Session) :
  (callbacksPending (timers w) <= fuel)%nat ->
  let w' := fireAll validateForm fuel w in
  timers w' = []
  /\ toasts w' = (toasts w ++ map paymentToast (completionOrder (timers w)))%list
  /\ (timers w <> [] \/ freshOrder (app w) -> freshOrder (app w')).
Proof.
  revert w. induction fuel as [|fuel IH]; intros w Hfuel; cbn [fireAll].
  - assert (Ht : timers w = []) by (apply callbacksPending_zero; lia).
    rewrite Ht. simpl. rewrite app_nil_r.
    split; [reflexivity|]. split; [reflexivity|].
    intros [H|H]; [contradiction | exact H].
  - destruct (timers w) as [|[m a|m] rest] eqn:Et.
    + rewrite Et. simpl. rewrite app_nil_r.
      split; [reflexivity|]. split; [reflexivity|].
      intros [H|H]; [contradiction | exact H].
    + set (w1 := {| app := handlePayment_begin (app w);
                    timers := (rest ++ [AwaitTimer m])%list;
                    toasts := toasts w |}).
      assert (Hw1 : react validateForm TimerFires w = w1)
        by (unfold react; rewrite Et; reflexivity).
      rewrite Hw1.
      destruct (IH w1) as (H1 & H2 & H3).
      { simpl. rewrite callbacksPending_app.
        unfold callbacksPending in *. simpl in *. lia. }
      split; [exact H1|]. split.
      * rewrite H2. subst w1. cbn [toasts timers].
        rewrite completionOrder_onPayment. reflexivity.
      * intros _. apply H3. left. simpl. destruct rest; discriminate.
    + set (w1 := {| app := fst (handlePayment_resume m (app w));
                    timers := rest;
                    toasts := (toasts w ++ snd (handlePayment_resume m (app w)))%list |}).
      assert (Hw1 : react validateForm TimerFires w = w1)
        by (unfold react; rewrite Et; reflexivity).
      rewrite Hw1.
      destruct (IH w1) as (H1 & H2 & H3).
      { simpl. unfold callbacksPending in *. simpl in *. lia. }
      split; [exact H1|]. split.
      * rewrite H2. subst w1. cbn [toasts timers].
        rewrite completionOrder_await, <- app_assoc. reflexivity.
      * intros _. apply H3. right. subst w1. cbn [app].
        apply freshOrder_resume.
Qed.

(** X16. Every pending payment completes. When the pending timers run,
    with as many callbacks as they stand for, none is left, one success
    toast per payment has been shown (payments already awaiting first), and
    if there was a timer at all the component is back at a fresh order: step
    [selection], not processing, nothing selected, empty form, terms not
    accepted. *)
Theorem pending_payments_complete :
  forall w : Session,
    let w' := fireAll validateForm (callbacksPending (timers w)) w in
    timers w' = []
    /\ toasts w' = (toasts w ++ map paymentToast (completionOrder (timers w)))%list
    /\ (timers w <> [] -> freshOrder (app w')).
Proof.
  intros w w'. subst w'.
  destruct (fireAll_completes (callbacksPending (timers w)) w (le_n _))
    as (H1 & H2 & H3).
  split; [exact H1|]. split; [exact H2|]. intros H. apply H3. left. exact H.
Qed.

(** X17. The processing flag comes too late to stop a second click. At the
    payment step, with no payment under way, a click on a payment button is
    accepted and leaves every button enabled until its first timer has run;
    a second click in that time is accepted as well, and when the four
    timer callbacks have run two payments have completed: two success
    toasts, in the order of the clicks. *)
Theorem second_click_pays_twice :
  forall (w : Session) (m1 m2 : string),
    timers w = [] ->
    currentStep (app w) = payment ->
    isProcessing (app w) = false ->
    In m1 paymentMethodIds -> In m2 paymentMethodIds ->
    let inputs := [ClickPayment m1; ClickPayment m2;
                   TimerFires; TimerFires; TimerFires; TimerFires] in
    accepted validateForm inputs w = true
    /\ toasts (feed validateForm inputs w)
       = (toasts w ++ [paymentToast m1; paymentToast m2])%list
    /\ timers (feed validateForm inputs w) = []
    /\ freshOrder (app (feed validateForm inputs w)).
Proof.
  intros w m1 m2 Ht Hstep Hproc H1 H2 inputs. subst inputs.
  assert (E1 : existsb (String.eqb m1) paymentMethodIds = true).
  { apply existsb_exists. exists m1. split; [exact H1 | apply String.eqb_refl]. }
  assert (E2 : existsb (String.eqb m2) paymentMethodIds = true).
  { apply existsb_exists. exists m2. split; [exact H2 | apply String.eqb_refl]. }
  destruct w as [st ts tl]. simpl in Ht, Hstep, Hproc. subst ts.
  unfold accepted, feed, enabled, react, paymentIntegrationRendered.
  cbn -[paymentMethodIds existsb handlePayment_resume handlePayment_begin
        calculateTotal paymentToast].
  rewrite Hstep, Hproc, E1, E2.
  cbn -[paymentMethodIds existsb calculateTotal paymentToast selectedOf]. 
  split; [reflexivity|]. split; [rewrite <- app_assoc; reflexivity|].
  split; [reflexivity|].
  unfold freshOrder; simpl. rewrite unselect_idempotent, selectedOf_unselected.
  repeat split.
Qed.

End SessionRuns.

(** ** Completion of a payment *)

(** The contact validation as the specification describes it: a name of two
    characters, a well-formed email and a well-formed phone are accepted; a
    name of one character, an email without a top-level part and an empty
    phone are each reported. *)
Example validateFormModel_accepts_and_rejects :
  validateFormModel
    {| FormData.name := "Jo"; FormData.email := "a@b.com";
       FormData.phone := "+1234567890"; FormData.promoCode := "" |}
    validationRules = []
  /\ map ValidationError.field
         (validateFormModel
            {| FormData.name := "J"; FormData.email := "a@b";
               FormData.phone := ""; FormData.promoCode := "" |}
            validationRules)
     = ["name"; "email"; "phone"].
Proof. split; reflexivity. Qed.

Section PaymentCompletion.

Variable validateForm :
  FormData -> list (string * ValidationRule.t) -> list ValidationError.t.


End PaymentCompletion.



Lemma order_not_empty_past_selection_witness :
  let validateForm := fun (_ : FormData) (_ : list (string * ValidationRule.t)) =>
                        @nil ValidationError.t in
  let w := feed validateForm
             [User (ToggleService "1"); User NextStep; User NextStep]
             initialSession in
  session validateForm w
  /\ currentStep (app w) = payment
  /\ (1 <= length (selectedOf (services (app w))))%nat.
Proof.
  intros validateForm w.
  assert (Hw : session validateForm w)
    by (apply session_feed; [apply session_start | reflexivity]).
  split; [exact Hw|]. split; [reflexivity|].
  apply (order_not_empty_past_selection validateForm w Hw). discriminate.
Defined.

Lemma isProcessing_has_pending_await_witness :
  let validateForm := fun (_ : FormData) (_ : list (string * ValidationRule.t)) =>
                        @nil ValidationError.t in
  let w := feed validateForm
             [User (ToggleService "1"); User NextStep; User NextStep;
              ClickPayment "eur"; TimerFires]
             initialSession in
  session validateForm w
  /\ isProcessing (app w) = true
  /\ exists method, In (AwaitTimer method) (timers w).
Proof.
  intros validateForm w.
  assert (Hw : session validateForm w)
    by (apply session_feed; [apply session_start | reflexivity]).
  split; [exact Hw|]. split; [reflexivity|].
  exact (isProcessing_has_pending_await validateForm w Hw eq_refl).
Defined.

Lemma pending_payments_complete_witness :
  let validateForm := fun (_ : FormData) (_ : list (string * ValidationRule.t)) =>
                        @nil ValidationError.t in
  let w := feed validateForm
             [User (ToggleService "1"); User NextStep; User NextStep;
              ClickPayment "eur"]
             initialSession in
  timers w <> []
  /\ callbacksPending (timers w) = 2%nat
  /\ freshOrder (app (fireAll validateForm 2 w)).
Proof.
  intros validateForm w.
  assert (Ht : timers w <> []) by discriminate.
  split; [exact Ht|]. split; [reflexivity|].
  apply (pending_payments_complete validateForm w), Ht.
Defined.

Lemma second_click_pays_twice_witness :
  let validateForm := fun (_ : FormData) (_ : list (string * ValidationRule.t)) =>
                        @nil ValidationError.t in
  let w := feed validateForm
             [User (ToggleService "1"); User NextStep; User NextStep]
             initialSession in
  timers w = []
  /\ currentStep (app w) = payment
  /\ isProcessing (app w) = false
  /\ In "rub" paymentMethodIds /\ In "crypto" paymentMethodIds
  /\ toasts (feed validateForm
               [ClickPayment "rub"; ClickPayment "crypto";
                TimerFires; TimerFires; TimerFires; TimerFires] w)
     = (toasts w ++ [paymentToast "rub"; paymentToast "crypto"])%list.
Proof.
  intros validateForm w.
  assert (H1 : In "rub" paymentMethodIds) by (left; reflexivity).
  assert (H2 : In "crypto" paymentMethodIds) by (right; right; left; reflexivity).
  split; [reflexivity|]. split; [reflexivity|]. split; [reflexivity|].
  split; [exact H1|]. split; [exact H2|].
  apply (second_click_pays_twice validateForm w "rub" "crypto"
           eq_refl eq_refl eq_refl H1 H2).
Defined.

(** ** Converted amounts *)

Lemma string_length_append (s t : string) :
  String.length (s +:+ t) = (String.length s + String.length t)%nat.
Proof. induction s as [|c s IH]; simpl; [reflexivity | rewrite IH; reflexivity]. Qed.

Lemma string_append_nil_r (s : string) : s +:+ "" = s.
Proof.
  induction s as [|c s IH]; [reflexivity|].
  change (String c (s +:+ "") = String c s). f_equal. exact IH.
Qed.

Lemma substring_whole (s : string) : substring 0 (String.length s) s = s.
Proof. induction s as [|c s IH]; simpl; [reflexivity | rewrite IH; reflexivity]. Qed.

Lemma substring_split (s : string) (i : nat) :
  (i <= String.length s)%nat ->
  substring 0 i s +:+ substring i (String.length s - i) s = s.
Proof.
  revert i. induction s as [|c s IH]; intros [|i] Hi; simpl in *.
  - reflexivity.
  - lia.
  - rewrite substring_whole. reflexivity.
  - change (String c (substring 0 i s +:+ substring i (String.length s - i) s)
            = String c s).
    f_equal. apply IH. lia.
Qed.

Lemma substring_tail_length (s : string) (i : nat) :
  (i <= String.length s)%nat ->
  String.length (substring i (String.length s - i) s) = (String.length s - i)%nat.
Proof.
  revert i. induction s as [|c s IH]; intros [|i] Hi; simpl in *.
  - reflexivity.
  - lia.
  - rewrite substring_whole. reflexivity.
  - apply IH. lia.
Qed.

Lemma length_zeros (k : nat) : String.length (zeros k) = k.
Proof. induction k as [|k IH]; simpl; [reflexivity | rewrite IH; reflexivity]. Qed.

Lemma uint_of_string_zeros (k : nat) (s : string) (d : Decimal.uint) :
  NilEmpty.uint_of_string s = Some d ->
  exists d', NilEmpty.uint_of_string (zeros k +:+ s) = Some d'
             /\ N.of_uint d' = N.of_uint d.
Proof.
  intros H. induction k as [|k (d' & Hd' & Hv)]; simpl.
  - exists d. split; [exact H | reflexivity].
  - exists (Decimal.D0 d'). rewrite Hd'. split; [reflexivity | exact Hv].
Qed.

Lemma uint_of_char_not_point (c : ascii) (o : option Decimal.uint)
    (d : Decimal.uint) :
  uint_of_char c o = Some d ->
  Ascii.eqb c "." = false /\ Ascii.eqb c "-" = false /\ exists d0, o = Some d0.
Proof.
  destruct o as [d0|]; [|discriminate]. intros H.
  apply uint_of_char_spec in H.
  repeat split; [| |exists d0; reflexivity];
    decompose [or and] H; subst; reflexivity.
Qed.

Lemma splitAtPoint_digits (a b : string) (d : Decimal.uint) :
  NilEmpty.uint_of_string (a +:+ b) = Some d ->
  splitAtPoint (a +:+ "." +:+ b) = (a, b).
Proof.
  revert d. induction a as [|c a IH]; intros d H; simpl in *.
  - reflexivity.
  - apply uint_of_char_not_point in H as (Hc & _ & d0 & Hd0).
    rewrite Hc, (IH d0 Hd0). reflexivity.
Qed.

Lemma splitAtPoint_no_point (s : string) (d : Decimal.uint) :
  NilEmpty.uint_of_string s = Some d -> splitAtPoint s = (s, "").
Proof.
  revert d. induction s as [|c s IH]; intros d H; simpl in *.
  - reflexivity.
  - apply uint_of_char_not_point in H as (Hc & _ & d0 & Hd0).
    rewrite Hc, (IH d0 Hd0). reflexivity.
Qed.

Lemma digitsOf_value (n : N) :
  NilEmpty.uint_of_string (digitsOf n) = Some (N.to_uint n).
Proof. apply NilEmpty.usu. Qed.

(** The numeral [fixedDigits n f] denotes [n / 10^f] and shows [f] digits
    after the point. *)
Lemma fixedDigits_value (n : N) (f : nat) :
  unsignedDecimalValue (fixedDigits n f)
  = Some (inject_Z (Z.of_N n) / pow10 f)%Q
  /\ fractionLength (fixedDigits n f) = f.
Proof.
  unfold fixedDigits, unsignedDecimalValue, fractionLength.
  destruct (Nat.eqb_spec f 0) as [->|Hf].
  - rewrite (splitAtPoint_no_point _ _ (digitsOf_value n)).
    cbn [snd]. cbv beta iota.
    rewrite string_append_nil_r, digitsOf_value.
    rewrite DecimalN.Unsigned.of_to. split; reflexivity.
  - set (m := if (String.length (digitsOf n) <=? f)%nat
              then zeros (f + 1 - String.length (digitsOf n)) +:+ digitsOf n
              else digitsOf n).
    assert (Hm : exists d', NilEmpty.uint_of_string m = Some d'
                            /\ N.of_uint d' = n).
    { subst m. destruct (String.length (digitsOf n) <=? f)%nat.
      - destruct (uint_of_string_zeros (f + 1 - String.length (digitsOf n))
                    _ _ (digitsOf_value n)) as (d' & H1 & H2).
        exists d'. split; [exact H1|].
        rewrite H2. apply DecimalN.Unsigned.of_to.
      - exists (N.to_uint n). split; [apply digitsOf_value|].
        apply DecimalN.Unsigned.of_to. }
    assert (Hk : (f < String.length m)%nat).
    { subst m. destruct (Nat.leb_spec (String.length (digitsOf n)) f).
      - rewrite string_length_append, length_zeros. lia.
      - lia. }
    destruct Hm as (d' & Hd' & Hv).
    set (k := String.length m) in *.
    assert (Hsplit : substring 0 (k - f) m +:+ substring (k - f) f m = m).
    { pose proof (substring_split m (k - f)) as H.
      replace (String.length m - (k - f))%nat with f in H by (subst k; lia).
      apply H. subst k. lia. }
    assert (Hlen : String.length (substring (k - f) f m) = f).
    { pose proof (substring_tail_length m (k - f)) as H.
      replace (String.length m - (k - f))%nat with f in H by (subst k; lia).
      apply H. subst k. lia. }
    rewrite (splitAtPoint_digits _ _ d') by (rewrite Hsplit; exact Hd').
    cbn [snd]. cbv beta iota.
    rewrite Hsplit, Hd', Hv, Hlen. split; reflexivity.
Qed.

Lemma decimalValue_unsigned (s : string) (v : Q) :
  unsignedDecimalValue s = Some v -> decimalValue s = Some v.
Proof.
  destruct s as [|c s]; [trivial|]. unfold decimalValue.
  destruct (Ascii.eqb_spec c "-") as [->|_]; [|trivial].
  unfold unsignedDecimalValue. simpl.
  destruct (splitAtPoint s) as [a b]. simpl.
  destruct (NilEmpty.uint_of_string (a +:+ b)); discriminate.
Qed.

Lemma fractionLength_minus (s : string) :
  fractionLength (String "-" s) = fractionLength s.
Proof.
  unfold fractionLength. simpl. destruct (splitAtPoint s). reflexivity.
Qed.

Lemma pow10_pos (f : nat) : (0 < pow10 f)%Q.
Proof.
  unfold pow10. change 0%Q with (inject_Z 0). rewrite <- Zlt_Qlt.
  apply Z.pow_pos_nonneg; lia.
Qed.

(** Rounding [y >= 0] to the closest integer moves it by at most 1/2. *)
Lemma roundHalfUp_close (y : Q) :
  (0 <= y)%Q ->
  (0 <= roundHalfUp y)%Z
  /\ (inject_Z (roundHalfUp y) - y <= 1 # 2)%Q
  /\ (- (1 # 2) < inject_Z (roundHalfUp y) - y)%Q.
Proof.
  intros Hy. unfold roundHalfUp.
  pose proof (Qfloor_le (y + (1 # 2))) as Hle.
  pose proof (Qlt_floor (y + (1 # 2))) as Hlt.
  rewrite inject_Z_plus in Hlt. change (inject_Z 1) with 1%Q in Hlt.
  split; [|split; lra].
  rewrite <- (Qfloor_Z 0). apply Qfloor_resp_le.
  change (inject_Z 0) with 0%Q. lra.
Qed.

Lemma scaled_close (n a p : Q) :
  (0 < p)%Q -> (n - a * p <= 1 # 2)%Q -> (- (1 # 2) < n - a * p)%Q ->
  (Qabs (n / p - a) <= (1 # 2) / p)%Q.
Proof.
  intros Hp H1 H2.
  assert (Hip : (0 < / p)%Q) by (apply Qinv_lt_0_compat; exact Hp).
  assert (Hpi : (p * / p == 1)%Q) by (apply Qmult_inv_r; lra).
  assert (E : (n / p - a == (n - a * p) * / p)%Q).
  { field. intros H0. rewrite H0 in Hp. apply (Qlt_irrefl 0), Hp. }
  apply Qabs_Qle_condition. rewrite E. unfold Qdiv.
  set (e := (n - a * p)%Q) in *. set (ip := (/ p)%Q) in *.
  split; nra.
Qed.

(** [toFixed] rounds to the nearest numeral: with at most 100 fraction
    digits and below 10^21 in absolute value, the result is a decimal numeral
    with exactly that many digits after the point, within half a unit of its
    last digit of the argument. *)
Lemma toFixed_rounds_to_nearest (x : Q) (fractionDigits : nat) :
  (fractionDigits <= 100)%nat ->
  (Qabs x < inject_Z (10 ^ 21))%Q ->
  exists (s : string) (v : Q),
    toFixed x fractionDigits = Some s
    /\ decimalValue s = Some v
    /\ fractionLength s = fractionDigits
    /\ (Qabs (v - x) <= (1 # 2) / pow10 fractionDigits)%Q.
Proof.
  intros Hf Hx. set (f := fractionDigits) in *.
  unfold toFixed, toFixedResult. fold f.
  destruct (Nat.ltb_spec 100 f) as [Hgt|_]; [lia|].
  destruct (Qle_bool (inject_Z (10 ^ 21)) (Qabs x)) eqn:Hbig.
  { apply Qle_bool_iff in Hbig. exfalso. apply (Qlt_not_le _ _ Hx Hbig). }
  pose proof (pow10_pos f) as Hp.
  assert (Hy : (0 <= Qabs x * pow10 f)%Q).
  { pose proof (Qabs_nonneg x). nra. }
  destruct (roundHalfUp_close _ Hy) as (Hn0 & Hn1 & Hn2).
  set (n := roundHalfUp (Qabs x * pow10 f)) in *.
  destruct (fixedDigits_value (Z.to_N n) f) as [Hval Hlen].
  rewrite Z2N.id in Hval by exact Hn0.
  pose proof (scaled_close (inject_Z n) (Qabs x) (pow10 f) Hp Hn1 Hn2) as Hclose.
  destruct (Qle_bool 0 x) eqn:Hsign.
  - apply Qle_bool_iff in Hsign.
    exists (fixedDigits (Z.to_N n) f), (inject_Z n / pow10 f)%Q.
    split; [reflexivity|]. split; [apply decimalValue_unsigned, Hval|].
    split; [exact Hlen|].
    rewrite (Qabs_pos x Hsign) in Hclose. exact Hclose.
  - assert (Hneg : (x < 0)%Q).
    { apply Qnot_le_lt. intros H. apply Qle_bool_iff in H. congruence. }
    exists (String "-" (fixedDigits (Z.to_N n) f)),
           (- (inject_Z n / pow10 f))%Q.
    split; [reflexivity|]. split.
    + unfold decimalValue. simpl. rewrite Hval. reflexivity.
    + split; [rewrite fractionLength_minus; exact Hlen|].
      rewrite (Qabs_neg x) in Hclose by lra.
      assert (E : (- (inject_Z n / pow10 f) - x
                   == - (inject_Z n / pow10 f - - x))%Q) by ring.
      rewrite E, Qabs_opp. exact Hclose.
Qed.

(** More than 100 fraction digits are refused, whatever the number. *)
Example toFixed_range_error :
  toFixedResult 1 101 = RangeError /\ toFixed 1 101 = None.
Proof. split; reflexivity. Qed.

Lemma toFixed64_finite (x : float) (q : Q) (f : nat) :
  (f <= 100)%nat -> exactValue x = Some q -> toFixed64 x f = toFixed q f.
Proof.
  intros Hf Hq. unfold toFixed64.
  destruct (Nat.ltb_spec 100 f) as [Hgt|_]; [lia|].
  unfold exactValue in Hq |- *.
  destruct (Prim2SF x) as [sg|sg| |sg m e]; try discriminate.
  - injection Hq as <-. reflexivity.
  - injection Hq as <-. reflexivity.
Qed.

(** X18. [getConvertedAmount] shows the product it computes rounded to
    the nearest numeral. For every total and each method with a rate, when
    the binary64 product total * rate is finite and below 10^21 in absolute
    value, the amount is a decimal numeral with two digits after the point
    (six for crypto) that differs from that product by at most half a unit
    of its last digit. *)
Theorem getConvertedAmount64_within_half_unit :
  forall (total : float) (methodId : string) (rate q : Q),
    rates methodId = Some rate ->
    exactValue (PrimFloat.mul total (toDouble rate)) = Some q ->
    (Qabs q < inject_Z (10 ^ 21))%Q ->
    let digits := if String.eqb methodId "crypto" then 6%nat else 2%nat in
    exists (s : string) (v : Q),
      amount (getConvertedAmount64 total methodId) = Some s
      /\ decimalValue s = Some v
      /\ fractionLength s = digits
      /\ (Qabs (v - q) <= (1 # 2) / pow10 digits)%Q.
Proof.
  intros total methodId rate q Hrate Hq Hsmall digits.
  assert (Hd : (digits <= 100)%nat)
    by (subst digits; destruct (String.eqb methodId "crypto"); lia).
  unfold getConvertedAmount64. cbn [amount]. rewrite Hrate. fold digits.
  rewrite (toFixed64_finite _ q digits Hd Hq).
  apply toFixed_rounds_to_nearest; assumption.
Qed.

Lemma getConvertedAmount64_within_half_unit_witness :
  let total := toDouble (1005 # 1000) in
  exists q : Q,
    rates "eur" = Some 1%Q
    /\ exactValue (PrimFloat.mul total (toDouble 1)) = Some q
    /\ (Qabs q < inject_Z (10 ^ 21))%Q
    /\ (q < 1005 # 1000)%Q
    /\ amount (getConvertedAmount64 total "eur") = Some "1.00"
    /\ exists (s : string) (v : Q),
         amount (getConvertedAmount64 total "eur") = Some s
         /\ decimalValue s = Some v
         /\ fractionLength s = 2%nat
         /\ (Qabs (v - q) <= (1 # 2) / pow10 2)%Q.
Proof.
  intros total.
  destruct (exactValue (PrimFloat.mul total (toDouble 1))) as [q|] eqn:Hq;
    [|vm_compute in Hq; discriminate].
  exists q.
  assert (Hsmall : (Qabs q < inject_Z (10 ^ 21))%Q).
  { vm_compute in Hq. injection Hq as <-. reflexivity. }
  split; [reflexivity|]. split; [reflexivity|]. split; [exact Hsmall|].
  split. { vm_compute in Hq. injection Hq as <-. reflexivity. }
  split; [vm_compute; reflexivity|].
  exact (getConvertedAmount64_within_half_unit total "eur" 1 q eq_refl Hq Hsmall).
Defined.

Lemma convertedAmountExact_spec (services : list Service) (formData : FormData)
    (methodId : string) (t : Q) (t64 : float) :
  t = total (calculateTotal services formData) ->
  t64 = total64 (calculateTotal64 services formData) ->
  convertedAmountExact services formData methodId = true ->
  exists (rate : Q) (s : string) (v : Q) (sym : string),
    rates methodId = Some rate
    /\ getConvertedAmount t methodId = {| amount := Some s; symbol := Some sym |}
    /\ decimalValue s = Some v
    /\ (v == t * rate)%Q
    /\ getConvertedAmount64 t64 methodId = getConvertedAmount t methodId.
Proof.
  unfold convertedAmountExact. intros Et Et64 H.
  rewrite <- Et, <- Et64 in H. clear Et Et64.
  destruct (rates methodId) as [rate|] eqn:Hrate; [|discriminate].
  destruct (amount (getConvertedAmount t methodId)) as [s|] eqn:Ha;
    [|discriminate].
  destruct (symbol (getConvertedAmount t methodId)) as [sym|] eqn:Hs;
    [|discriminate].
  destruct (decimalValue s) as [v|] eqn:Hv; [|discriminate].
  destruct (amount (getConvertedAmount64 t64 methodId)) as [s64|] eqn:Ha64;
    [|discriminate].
  apply andb_true_iff in H as [Hq He].
  apply Qeq_bool_iff in Hq. apply String.eqb_eq in He. subst s64.
  exists rate, s, v, sym. split; [reflexivity|].
  assert (E : getConvertedAmount t methodId
              = {| amount := Some s; symbol := Some sym |}).
  { destruct (getConvertedAmount t methodId) as [a b]. simpl in Ha, Hs.
    subst. reflexivity. }
  split; [exact E|]. split; [exact Hv|]. split; [exact Hq|].
  rewrite E. unfold getConvertedAmount64 in *. simpl in Ha64. rewrite Ha64.
  unfold getConvertedAmount in Hs. simpl in Hs. rewrite Hs. reflexivity.
Qed.

Section AmountsOverSession.

Variable validateForm :
  FormData -> list (string * ValidationRule.t) -> list ValidationError.t.

(** X19. In every reachable state and for each of the three payment
    methods, the rate and the symbol exist (no NaN is shown), the amount
    shown denotes exactly total * rate, so [toFixed] rounds nothing away, and
    the binary64 evaluation shows the same amount. *)
Theorem reachable_converted_amounts_exact :
  forall (st : AppState) (methodId : string),
    reachable validateForm st ->
    In methodId paymentMethodIds ->
    let t := total (calculateTotal (services st) (formData st)) in
    let t64 := total64 (calculateTotal64 (services st) (formData st)) in
    exists (rate : Q) (s : string) (v : Q) (sym : string),
      rates methodId = Some rate
      /\ getConvertedAmount t methodId
         = {| amount := Some s; symbol := Some sym |}
      /\ decimalValue s = Some v
      /\ (v == t * rate)%Q
      /\ getConvertedAmount64 t64 methodId = getConvertedAmount t methodId.
Proof.
  intros st methodId Hr Hm t t64.
  apply (convertedAmountExact_spec (services st) (formData st));
    [reflexivity | reflexivity |].
  assert (Hin : In (services st) (selections initialServices)).
  { apply unselected_catalogue_selections.
    apply (flowInvariant_reachable validateForm st Hr). }
  assert (Hall : forallb (fun services =>
                   forallb (fun m =>
                     convertedAmountExact services initialFormData m
                     && convertedAmountExact services
                          (withPromoCode "digital2024" initialFormData) m)
                   paymentMethodIds)
                 (selections initialServices) = true)
    by (vm_compute; reflexivity).
  rewrite forallb_forall in Hall. specialize (Hall _ Hin).
  rewrite forallb_forall in Hall. specialize (Hall _ Hm).
  apply andb_true_iff in Hall as [H0 H1].
  unfold convertedAmountExact in *.
  destruct (promoCondition (Some (formData st))) eqn:Hp.
  - destruct (promoCondition_decides_calculateTotal (services st) (formData st)
                (withPromoCode "digital2024" initialFormData)) as [-> ->];
      [rewrite Hp; reflexivity | exact H1].
  - destruct (promoCondition_decides_calculateTotal (services st) (formData st)
                initialFormData) as [-> ->];
      [rewrite Hp; reflexivity | exact H0].
Qed.

End AmountsOverSession.

Lemma reachable_converted_amounts_exact_witness :
  let validateForm := fun (_ : FormData) (_ : list (string * ValidationRule.t)) =>
                        @nil ValidationError.t in
  let st := run validateForm
              [ToggleService "1"; ToggleService "2"; ToggleService "3";
               ToggleService "4"; NextStep; NextStep] in
  reachable validateForm st
  /\ In "crypto" paymentMethodIds
  /\ getConvertedAmount (total (calculateTotal (services st) (formData st)))
                        "crypto"
     = {| amount := Some "0.014025"; symbol := Some "₿" |}
  /\ exists (rate : Q) (s : string) (v : Q) (sym : string),
       rates "crypto" = Some rate
       /\ getConvertedAmount
            (total (calculateTotal (services st) (formData st))) "crypto"
          = {| amount := Some s; symbol := Some sym |}
       /\ decimalValue s = Some v
       /\ (v == total (calculateTotal (services st) (formData st)) * rate)%Q
       /\ getConvertedAmount64
            (total64 (calculateTotal64 (services st) (formData st))) "crypto"
          = getConvertedAmount
              (total (calculateTotal (services st) (formData st))) "crypto".
Proof.
  intros validateForm st.
  assert (Hr : reachable validateForm st) by (eexists; reflexivity).
  assert (Hm : In "crypto" paymentMethodIds) by (right; right; left; reflexivity).
  split; [exact Hr|]. split; [exact Hm|]. split; [reflexivity|].
  exact (reachable_converted_amounts_exact validateForm st "crypto" Hr Hm).
Defined.

(** ** Properties checked on every state of a session *)

Section Enumeration.

Variable validateForm :
  FormData -> list (string * ValidationRule.t) -> list ValidationError.t.

(** A check that only looks at the two calculations holds in every
    reachable state as soon as it holds for the 16 selections of the
    catalogue, with and without a matching promo code. *)
Lemma reachable_by_enumeration
    (check : Calculation -> Calculation64 -> bool) :
  forallb (fun services =>
             check (calculateTotal services initialFormData)
                   (calculateTotal64 services initialFormData)
             && check (calculateTotal services
                         (withPromoCode "digital2024" initialFormData))
                      (calculateTotal64 services
                         (withPromoCode "digital2024" initialFormData)))
          (selections initialServices) = true ->
  forall st, reachable validateForm st ->
    check (calculateTotal (services st) (formData st))
          (calculateTotal64 (services st) (formData st)) = true.
Proof.
  intros Hall st Hr.
  assert (Hin : In (services st) (selections initialServices)).
  { apply unselected_catalogue_selections.
    apply (flowInvariant_reachable validateForm st Hr). }
  rewrite forallb_forall in Hall. specialize (Hall _ Hin).
  apply andb_true_iff in Hall as [H0 H1].
  destruct (promoCondition (Some (formData st))) eqn:Hp.
  - destruct (promoCondition_decides_calculateTotal (services st) (formData st)
                (withPromoCode "digital2024" initialFormData)) as [-> ->];
      [rewrite Hp; reflexivity | exact H1].
  - destruct (promoCondition_decides_calculateTotal (services st) (formData st)
                initialFormData) as [-> ->];
      [rewrite Hp; reflexivity | exact H0].
Qed.

(** X20. In every reachable state the discount lines of the price summary
    are exact: the percent label is the discount times 100 and one of 0, 5,
    10, 15; the amount label, printed with no fraction digit, denotes the
    discount amount itself; and the binary64 evaluation prints the same two
    labels. *)
Theorem reachable_summary_labels_exact :
  forall st : AppState,
    reachable validateForm st ->
    let c := calculateTotal (services st) (formData st) in
    let c64 := calculateTotal64 (services st) (formData st) in
    (inject_Z (discountPercent c) == discount c * 100)%Q
    /\ In (discountPercent c) [0; 5; 10; 15]%Z
    /\ discountPercent64 c64 = Some (discountPercent c)
    /\ exists (s : string) (v : Q),
         discountAmountShown c = Some s
         /\ discountAmountShown64 c64 = Some s
         /\ decimalValue s = Some v
         /\ (v == discountAmount c)%Q.
Proof.
  intros st Hr c c64.
  pose proof (reachable_by_enumeration
                (fun c c64 =>
                   Qeq_bool (inject_Z (discountPercent c)) (discount c * 100)
                   && existsb (Z.eqb (discountPercent c)) [0; 5; 10; 15]%Z
                   && match discountPercent64 c64 with
                      | Some p => Z.eqb p (discountPercent c)
                      | None => false
                      end
                   && match discountAmountShown c, discountAmountShown64 c64 with
                      | Some s, Some s64 =>
                          String.eqb s64 s
                          && match decimalValue s with
                             | Some v => Qeq_bool v (discountAmount c)
                             | None => false
                             end
                      | _, _ => false
                      end)) as H.
  specialize (H ltac:(vm_compute; reflexivity) st Hr). cbv beta in H.
  fold c c64 in H.
  apply andb_true_iff in H as [H H4]. apply andb_true_iff in H as [H H3].
  apply andb_true_iff in H as [H1 H2].
  split; [apply Qeq_bool_iff, H1|]. split.
  { apply existsb_exists in H2 as (z & Hz & Hzeq).
    apply Z.eqb_eq in Hzeq. rewrite Hzeq. exact Hz. }
  split.
  { destruct (discountPercent64 c64) as [p|]; [|discriminate].
    apply Z.eqb_eq in H3. rewrite H3. reflexivity. }
  destruct (discountAmountShown c) as [s|]; [|discriminate].
  destruct (discountAmountShown64 c64) as [s64|]; [|discriminate].
  apply andb_true_iff in H4 as [Hs Hv]. apply String.eqb_eq in Hs. subst s64.
  destruct (decimalValue s) as [v|] eqn:Ev; [|discriminate].
  exists s, v. split; [reflexivity|]. split; [reflexivity|].
  split; [exact Ev | apply Qeq_bool_iff, Hv].
Qed.

End Enumeration.

Lemma reachable_summary_labels_exact_witness :
  let validateForm := fun (_ : FormData) (_ : list (string * ValidationRule.t)) =>
                        @nil ValidationError.t in
  let st := run validateForm
              [ToggleService "1"; ToggleService "2"; ToggleService "3";
               ToggleService "4"] in
  let c := calculateTotal (services st) (formData st) in
  reachable validateForm st
  /\ discountPercent c = 15%Z
  /\ discountAmountShown c = Some "165"
  /\ discountPercent64 (calculateTotal64 (services st) (formData st))
     = Some (discountPercent c).
Proof.
  intros validateForm st c.
  assert (Hr : reachable validateForm st) by (eexists; reflexivity).
  split; [exact Hr|]. split; [reflexivity|]. split; [reflexivity|].
  apply (reachable_summary_labels_exact validateForm st Hr).
Defined.

(** ** What a session never shows *)

Section SessionInvariants.

Variable validateForm :
  FormData -> list (string * ValidationRule.t) -> list ValidationError.t.

Lemma handleNextStep_enabled_toasts (st : AppState) :
  nextButtonDisabled st = false ->
  Forall (fun t : Toast => snd t <> warning)
         (snd (handleNextStep validateForm st)).
Proof.
  unfold nextButtonDisabled, handleNextStep. intros ->.
  destruct (currentStep st); [constructor| |constructor].
  unfold validateContactForm.
  destruct (length (validateForm (formData st) validationRules) =? 0)%nat;
    simpl; repeat constructor; discriminate.
Qed.

(** X21. No session ever shows a warning toast. The only one in the
    component, "select at least one service" of [handleNextStep], is behind
    the same test that disables the next button, so no click reaches it. *)
Theorem warning_toast_never_shown :
  forall w : Session,
    session validateForm w ->
    Forall (fun t : Toast => snd t <> warning) (toasts w).
Proof.
  induction 1 as [|w i Hw IH Hen].
  - constructor.
  - destruct i as [e| |]; simpl in *.
    + destruct (handle validateForm e (app w)) as [st ts] eqn:E. simpl.
      apply Forall_app. split; [exact IH|].
      replace ts with (snd (handle validateForm e (app w)))
        by (rewrite E; reflexivity).
      destruct e; simpl; try constructor; simpl in Hen; try discriminate.
      * apply handleNextStep_enabled_toasts.
        apply andb_true_iff in Hen as [_ Hen].
        apply negb_true_iff in Hen. exact Hen.
    + exact IH.
    + destruct (timers w) as [|[m a|m] rest]; simpl; try exact IH.
      apply Forall_app. split; [exact IH|].
      repeat constructor. discriminate.
Qed.

(** X22. In every session, at the payment step the form data on file is
    data [validateForm] accepted, and no field error is stored: the fields
    cannot be edited at that step and only a successful validation leads to
    it. *)
Theorem payment_step_has_validated_form :
  forall w : Session,
    session validateForm w ->
    currentStep (app w) = payment ->
    validateForm (formData (app w)) validationRules = []
    /\ formErrors (app w) = ∅.
Proof.
  induction 1 as [|w i Hw IH Hen].
  - discriminate.
  - destruct i as [e| |]; simpl in *.
    + destruct (handle validateForm e (app w)) as [st ts] eqn:E. simpl.
      replace st with (fst (handle validateForm e (app w)))
        by (rewrite E; reflexivity).
      clear E st ts.
      destruct e; simpl in *; try discriminate.
      * unfold serviceCardIds in Hen.
        destruct (currentStep (app w)); simpl in Hen; discriminate.
      * unfold contactFormRendered in Hen.
        destruct (currentStep (app w)); discriminate.
      * unfold contactFormRendered in Hen.
        destruct (currentStep (app w)); discriminate.
      * unfold contactFormRendered in Hen.
        destruct (currentStep (app w)); discriminate.
      * unfold contactFormRendered in Hen.
        destruct (currentStep (app w)); discriminate.
      * unfold contactFormRendered in Hen.
        destruct (currentStep (app w)); discriminate.
      * apply andb_true_iff in Hen as [Hren Hen].
        apply negb_true_iff in Hen.
        unfold nextButtonDisabled in Hen. unfold handleNextStep.
        rewrite Hen. unfold nextButtonRendered in Hren.
        destruct (currentStep (app w)) eqn:Hstep; try discriminate.
        unfold validateContactForm.
        destruct (validateForm (formData (app w)) validationRules)
          as [|e errors] eqn:Ev; simpl.
        -- intros _. split; [exact Ev | reflexivity].
        -- rewrite Hstep. discriminate.
      * unfold handleBack. simpl.
        destruct (currentStep (app w)); discriminate.
    + exact IH.
    + destruct (timers w) as [|[m a|m] rest]; simpl; try exact IH.
      discriminate.
Qed.

End SessionInvariants.

Lemma payment_step_has_validated_form_witness :
  let validateForm := fun (fd : FormData) (_ : list (string * ValidationRule.t)) =>
                        if (String.length (FormData.name fd) <? 2)%nat
                        then [{| ValidationError.field := "name";
                                 ValidationError.message := "Слишком короткое имя" |}]
                        else [] in
  let w := feed validateForm
             [User (ToggleService "1"); User NextStep; User NextStep;
              User (ChangeName "Jo"); User NextStep]
             initialSession in
  session validateForm w
  /\ currentStep (app w) = payment
  /\ validateForm (formData (app w)) validationRules = []
  /\ formErrors (app w) = ∅.
Proof.
  intros validateForm w.
  assert (Hw : session validateForm w)
    by (apply session_feed; [apply session_start | reflexivity]).
  split; [exact Hw|]. split; [reflexivity|].
  exact (payment_step_has_validated_form validateForm w Hw eq_refl).
Defined.

Lemma warning_toast_never_shown_witness :
  let validateForm := fun (_ : FormData) (_ : list (string * ValidationRule.t)) =>
                        @nil ValidationError.t in
  let w := feed validateForm
             [User (ToggleService "1"); User NextStep; User NextStep;
              ClickPayment "eur"; TimerFires; TimerFires]
             initialSession in
  session validateForm w
  /\ length (toasts w) = 2%nat
  /\ Forall (fun t : Toast => snd t <> warning) (toasts w).
Proof.
  intros validateForm w.
  assert (Hw : session validateForm w)
    by (apply session_feed; [apply session_start | reflexivity]).
  split; [exact Hw|]. split; [reflexivity|].
  exact (warning_toast_never_shown validateForm w Hw).
Defined.

(** ** Progress indicator *)

(** X23. Whatever the current step, the three dots read: green for the
    steps before it, blue for the step itself, gray for the steps after
    it. *)
Theorem progressDots_shape :
  forall currentStep : Step,
    let i := Z.to_nat (indexOf stepOrder currentStep) in
    progressDots currentStep
    = (repeat dotGreen i ++ [dotBlue] ++ repeat dotGray (2 - i))%list.
Proof. intros []; reflexivity. Qed.
